(** * vtk-h clip filter: the multi-plane implicit function and the
      per-domain clip driver (vtkh/filters/Clip.cpp), embedded in Rocq.

    Scalars are IEEE-754 binary32 values ([vtkm::FloatDefault] in the default
    build, [vtkm::Vec3f] always), taken from the parametric specification of
    floating-point arithmetic of the standard library ([SpecFloat]) at
    precision 24 and maximal exponent 128; the [double] arguments of the
    public setters are binary64 values of the same specification. Integers
    ([int], [vtkm::Id]) are in [Z]: the file computes on them only by
    counting up from 0 to a bound that is an [int]. *)

From Stdlib Require Import ZArith Bool Lia List.
From Stdlib Require Import SpecFloat.
From stdpp Require Import base option list.

Local Open Scope Z_scope.

(* ================================================================== *)
(** ** Scalars *)

Module F32.

Definition prec : Z := 24.
Definition emax : Z := 128.

Definition add : spec_float -> spec_float -> spec_float := SFadd prec emax.
Definition sub : spec_float -> spec_float -> spec_float := SFsub prec emax.
Definition mul : spec_float -> spec_float -> spec_float := SFmul prec emax.
Definition div : spec_float -> spec_float -> spec_float := SFdiv prec emax.
Definition sqrt : spec_float -> spec_float := SFsqrt prec emax.

(** [a < b], [a <= b], [a == b] of C++ on floats: false on a NaN. *)
Definition ltb : spec_float -> spec_float -> bool := SFltb.
Definition leb : spec_float -> spec_float -> bool := SFleb.
Definition eqb : spec_float -> spec_float -> bool := SFeqb.

Definition is_nan (a : spec_float) : bool :=
  match a with S754_nan => true | _ => false end.

(** The literals of the source: [0.0f], [-0.0f], [1.0f], [-1.0f]. *)
Definition zero : spec_float := S754_zero false.
Definition neg_zero : spec_float := S754_zero true.
Definition of_Z (n : Z) : spec_float := binary_normalize prec emax n 0 false.
Definition one : spec_float := Eval cbv in of_Z 1.
Definition neg_one : spec_float := Eval cbv in of_Z (-1).

(** [float(x)] for a [double] x: rounding to nearest, ties to even. *)
Definition of_double (x : spec_float) : spec_float :=
  match x with
  | S754_finite s m e => binary_round prec emax s m e
  | _ => x
  end.

End F32.

(** The doubles the examples use. *)
Module F64.
Definition prec : Z := 53.
Definition emax : Z := 1024.
Definition of_Z (n : Z) : spec_float := binary_normalize prec emax n 0 false.
Definition div : spec_float -> spec_float -> spec_float := SFdiv prec emax.
End F64.

Abbreviation Scalar := spec_float (only parsing).

(* ================================================================== *)
(** ** The parts of vtk-m the file calls *)

Module vtkm.

(** [vtkm::Vec<vtkm::FloatDefault, 3>]. *)
Record Vec3 : Type := mkVec3 { c0 : Scalar; c1 : Scalar; c2 : Scalar }.

Definition vzero : Vec3 := mkVec3 F32.zero F32.zero F32.zero.

(** Modelled from the spec: [vtkm::NegativeInfinity<Scalar>()] is a
    function of vtk-m, whose sources are not part of the repository. *)
Definition NegativeInfinity : Scalar := S754_infinity true.

(** Modelled from the spec: [operator-] of [vtkm::Vec], component-wise. *)
Definition vsub (a b : Vec3) : Vec3 :=
  mkVec3 (F32.sub (c0 a) (c0 b)) (F32.sub (c1 a) (c1 b)) (F32.sub (c2 a) (c2 b)).

(** Modelled from the spec: [vtkm::Dot] on vectors of three components is
    [(a[0] * b[0]) + (a[1] * b[1]) + (a[2] * b[2])]. *)
Definition Dot (a b : Vec3) : Scalar :=
  F32.add (F32.add (F32.mul (c0 a) (c0 b)) (F32.mul (c1 a) (c1 b)))
          (F32.mul (c2 a) (c2 b)).

(** Modelled from the spec: [vtkm::Max] on the host is [std::max], that is
    [(x < y) ? y : x]. ([fmax], of the device build, differs from it only
    when [x] is NaN, which [maxVal] never is, and in the zero it returns
    for two zeros of opposite signs.) *)
Definition Max (x y : Scalar) : Scalar := if F32.ltb x y then y else x.

(** Modelled from the spec: [vtkm::Normalize(v)] assigns
    [vtkm::RMagnitude(v) * v] to [v], where [RMagnitude] is
    [1 / Sqrt(Dot(v, v))]; there is no test for a zero vector. *)
Definition MagnitudeSquared (v : Vec3) : Scalar := Dot v v.
Definition RSqrt (x : Scalar) : Scalar := F32.div F32.one (F32.sqrt x).
Definition RMagnitude (v : Vec3) : Scalar := RSqrt (MagnitudeSquared v).
Definition scale (s : Scalar) (v : Vec3) : Vec3 :=
  mkVec3 (F32.mul s (c0 v)) (F32.mul s (c1 v)) (F32.mul s (c2 v)).
Definition Normalize (v : Vec3) : Vec3 := scale (RMagnitude v) v.

End vtkm.

Import vtkm.
Abbreviation Vector := Vec3 (only parsing).

(** A [double[3]] argument and its conversion, component by component. *)
Record Double3 : Type := mkDouble3 { d0 : Scalar; d1 : Scalar; d2 : Scalar }.

Definition to_Vec3f (d : Double3) : Vec3 :=
  mkVec3 (F32.of_double (d0 d)) (F32.of_double (d1 d)) (F32.of_double (d2 d)).

(* ================================================================== *)
(** ** Outcomes of a call *)

(** A call returns, stops at a failed [VTKM_ASSERT], or reads or writes an
    array outside its bounds, for which C++ defines no behaviour. *)
Inductive outcome (A : Type) : Type :=
| Returns (a : A)
| AssertionFailed
| Undefined.
Arguments Returns {A} a.
Arguments AssertionFailed {A}.
Arguments Undefined {A}.

Definition obind {A B} (m : outcome A) (k : A -> outcome B) : outcome B :=
  match m with
  | Returns a => k a
  | AssertionFailed => AssertionFailed
  | Undefined => Undefined
  end.

#[global] Instance outcome_ret : MRet outcome := fun A a => Returns a.
#[global] Instance outcome_bind : MBind outcome := fun A B k m => obind m k.

(** [a[i]] on a C array [a], as an rvalue and as an assignment. *)
Definition rd (a : list Vec3) (i : Z) : outcome Vec3 :=
  if (i <? 0) then Undefined
  else match a !! Z.to_nat i with
       | Some v => Returns v
       | None => Undefined
       end.

Definition wr (a : list Vec3) (i : Z) (v : Vec3) : outcome (list Vec3) :=
  if (i <? 0) then Undefined
  else match a !! Z.to_nat i with
       | Some _ => Returns (<[Z.to_nat i := v]> a)
       | None => Undefined
       end.

(* ================================================================== *)
(** ** vtkh::detail::MultiPlane *)

Module MultiPlane.

(** [Points] and [Normals] are declared with six elements; [ModifiedCount]
    is the counter of the base class that [Modified()] increments. *)
Record t : Type := mk {
  Points : list Vec3;
  Normals : list Vec3;
  m_num_planes : Z;
  ModifiedCount : Z
}.

Definition capacity : Z := 6.

(** The shape the declarations [Vector Points[6]], [Vector Normals[6]]
    give every object. *)
Definition wf (mp : t) : Prop :=
  length (Points mp) = 6%nat /\ length (Normals mp) = 6%nat.

(** Modelled from the spec: [Modified()] belongs to the base class of
    vtk-m; it increments the counter of modifications, which starts at 0. *)
Definition Modified (mp : t) : t :=
  mk (Points mp) (Normals mp) (m_num_planes mp) (ModifiedCount mp + 1).

(** [MultiPlane() = default]: the member initializers; the elements
    without an initializer are zero. *)
Definition default : t :=
  mk [ mkVec3 F32.neg_zero F32.zero F32.zero;
       mkVec3 F32.zero F32.zero F32.zero;
       mkVec3 F32.zero F32.neg_zero F32.zero;
       vzero; vzero; vzero ]
     [ mkVec3 F32.neg_one F32.zero F32.zero;
       mkVec3 F32.one F32.zero F32.zero;
       mkVec3 F32.zero F32.zero F32.zero;
       vzero; vzero; vzero ]
     3 0.

(** One pass of [for (vtkm::Id index : {0, 1, 2}) dst[index] = src[index];] *)
Fixpoint copy_slots (idxs : list Z) (src dst : list Vec3) : outcome (list Vec3) :=
  match idxs with
  | [] => Returns dst
  | index :: rest =>
      v ← rd src index;
      dst' ← wr dst index v;
      copy_slots rest src dst'
  end.

Definition SetPlanes (mp : t) (points normals : list Vec3) : outcome t :=
  ps ← copy_slots [0; 1; 2] points (Points mp);
  ns ← copy_slots [0; 1; 2] normals (Normals mp);
  Returns (Modified (mk ps ns (m_num_planes mp) (ModifiedCount mp))).

(** The constructor [MultiPlane(points, normals, num_planes)]. *)
Definition make (points normals : list Vec3) (num_planes : Z) : outcome t :=
  mp ← SetPlanes default points normals;
  Returns (mk (Points mp) (Normals mp) num_planes (ModifiedCount mp)).

(** Modelled from the spec: [VTKM_ASSERT(cond)] is a macro of vtk-m. It
    checks the condition in a build with assertions, and is compiled to
    nothing under [NDEBUG] or [VTKM_NO_ASSERT]; [assertions] tells which
    build is meant. *)
Definition VTKM_ASSERT (assertions cond : bool) : outcome unit :=
  if assertions && negb cond then AssertionFailed else Returns tt.

Definition SetPlane (assertions : bool) (mp : t) (idx : Z)
    (point normal : Vec3) : outcome t :=
  _ ← VTKM_ASSERT assertions ((0 <=? idx) && (idx <? 3));
  ps ← wr (Points mp) idx point;
  ns ← wr (Normals mp) idx normal;
  Returns (Modified (mk ps ns (m_num_planes mp) (ModifiedCount mp))).

Definition SetNumPlanes (mp : t) (num : Z) : t :=
  Modified (mk (Points mp) (Normals mp) num (ModifiedCount mp)).

(** [GetPlanes] fills two arrays of three elements of the caller. *)
Definition GetPlanes (mp : t) : outcome (list Vec3 * list Vec3) :=
  ps ← copy_slots [0; 1; 2] (Points mp) [vzero; vzero; vzero];
  ns ← copy_slots [0; 1; 2] (Normals mp) [vzero; vzero; vzero];
  Returns (ps, ns).

Definition GetPoints (mp : t) : list Vec3 := Points mp.
Definition GetNormals (mp : t) : list Vec3 := Normals mp.

(** [d_index = Dot(point - Points[index], Normals[index])]. *)
Definition plane_val (mp : t) (point : Vec3) (index : Z) : outcome Scalar :=
  p ← rd (Points mp) index;
  n ← rd (Normals mp) index;
  Returns (Dot (vsub point p) n).

(** The loop of [Value]: [todo] iterations are left, the next one is at
    [index]. *)
Fixpoint Value_loop (mp : t) (point : Vec3) (todo : nat) (index : Z)
    (maxVal : Scalar) : outcome Scalar :=
  match todo with
  | O => Returns maxVal
  | S todo' =>
      val ← plane_val mp point index;
      Value_loop mp point todo' (index + 1) (Max maxVal val)
  end.

Definition Value (mp : t) (point : Vec3) : outcome Scalar :=
  Value_loop mp point (Z.to_nat (m_num_planes mp)) 0 NegativeInfinity.

(** The loop of [Gradient], on the pair [(maxVal, maxValIdx)]. *)
Fixpoint Gradient_loop (mp : t) (point : Vec3) (todo : nat) (index : Z)
    (maxVal : Scalar) (maxValIdx : Z) : outcome Z :=
  match todo with
  | O => Returns maxValIdx
  | S todo' =>
      val ← plane_val mp point index;
      if F32.ltb maxVal val
      then Gradient_loop mp point todo' (index + 1) val index
      else Gradient_loop mp point todo' (index + 1) maxVal maxValIdx
  end.

Definition Gradient_index (mp : t) (point : Vec3) : outcome Z :=
  Gradient_loop mp point (Z.to_nat (m_num_planes mp)) 0 NegativeInfinity 0.

Definition Gradient (mp : t) (point : Vec3) : outcome Vec3 :=
  maxValIdx ← Gradient_index mp point;
  rd (Normals mp) maxValIdx.

(** The public member functions as calls on an object; [exec] gives the
    object after the call, in a build with or without assertions. The
    [const] member functions leave the object as it is whenever they
    return. *)
Inductive call : Type :=
| CallSetPlanes (points normals : list Vec3)
| CallSetPlane (idx : Z) (point normal : Vec3)
| CallSetNumPlanes (num : Z)
| CallGetPlanes
| CallGetPoints
| CallGetNormals
| CallValue (point : Vec3)
| CallGradient (point : Vec3).

Definition is_setter (c : call) : bool :=
  match c with
  | CallSetPlanes _ _ | CallSetPlane _ _ _ | CallSetNumPlanes _ => true
  | _ => false
  end.

Definition exec (assertions : bool) (c : call) (mp : t) : outcome t :=
  match c with
  | CallSetPlanes points normals => SetPlanes mp points normals
  | CallSetPlane idx point normal => SetPlane assertions mp idx point normal
  | CallSetNumPlanes num => Returns (SetNumPlanes mp num)
  | CallGetPlanes => _ ← GetPlanes mp; Returns mp
  | CallGetPoints => Returns mp
  | CallGetNormals => Returns mp
  | CallValue point => _ ← Value mp point; Returns mp
  | CallGradient point => _ ← Gradient mp point; Returns mp
  end.

End MultiPlane.

(* ================================================================== *)
(** ** The implicit functions a clip can be configured with *)

(** [vtkm::Bounds]: three ranges of doubles. *)
Record Bounds : Type := mkBounds {
  XMin : Scalar; XMax : Scalar;
  YMin : Scalar; YMax : Scalar;
  ZMin : Scalar; ZMax : Scalar
}.

(** What a [vtkm::cont::ImplicitFunctionHandle] of this file can hold. *)
Inductive ImplicitFunction : Type :=
| Box (MinPoint MaxPoint : Vec3)
| Sphere (Center : Vec3) (Radius : Scalar)
| Plane (Origin Normal : Vec3)
| MultiPlaneFunction (planes : MultiPlane.t).

(* ================================================================== *)
(** ** vtkh::Clip *)

Section Clip.

(** A [vtkm::cont::DataSet], the field selection of the filter and what the
    collaborators throw are opaque here. *)
Variable Mesh : Type.
Variable FieldSelection : Type.
Variable Exn : Type.

(** Modelled from the spec: [vtkh::DataSet] is the multi-domain container,
    with [GetNumberOfDomains()], [GetDomain(index)] giving a mesh and its
    domain id, and [AddDomain(mesh, domain_id)], which appends. *)
Definition DataSet : Type := list (Mesh * Z).

Definition GetNumberOfDomains (d : DataSet) : Z := Z.of_nat (length d).

Definition GetDomain (d : DataSet) (index : Z) : option (Mesh * Z) :=
  if index <? 0 then None else d !! Z.to_nat index.

Definition AddDomain (d : DataSet) (dom : Mesh) (domain_id : Z) : DataSet :=
  d ++ [(dom, domain_id)].

(** Modelled from the spec: [vtkh::vtkmClip::Run] is the external clip
    primitive and [vtkh::CleanGrid] the external cleanup stage; either
    returns a value or throws. *)
Variable vtkmClip_Run :
  Mesh -> option ImplicitFunction -> bool -> FieldSelection -> Exn + Mesh.
Variable CleanGrid_Update : DataSet -> Exn + DataSet.

(** The filter: [m_internals->m_func] (an empty handle at first),
    [m_invert], and the members of the base class [Filter]. *)
Record Clip : Type := mkClip {
  m_func : option ImplicitFunction;
  m_invert : bool;
  m_input : DataSet;
  m_output : option DataSet;
  m_field_selection : FieldSelection
}.

Definition GetFieldSelection (c : Clip) : FieldSelection := m_field_selection c.

Definition set_func (c : Clip) (f : ImplicitFunction) : Clip :=
  mkClip (Some f) (m_invert c) (m_input c) (m_output c) (m_field_selection c).

Definition set_output (c : Clip) (out : DataSet) : Clip :=
  mkClip (m_func c) (m_invert c) (m_input c) (Some out) (m_field_selection c).

(** [Clip::Clip()] on a filter whose input and field selection are given. *)
Definition new_Clip (input : DataSet) (fs : FieldSelection) : Clip :=
  mkClip None false input None fs.

Definition SetInvertClip (c : Clip) (invert : bool) : Clip :=
  mkClip (m_func c) invert (m_input c) (m_output c) (m_field_selection c).

Definition SetBoxClip (c : Clip) (clipping_bounds : Bounds) : Clip :=
  let box :=
    Box (mkVec3 (F32.of_double (XMin clipping_bounds))
                (F32.of_double (YMin clipping_bounds))
                (F32.of_double (ZMin clipping_bounds)))
        (mkVec3 (F32.of_double (XMax clipping_bounds))
                (F32.of_double (YMax clipping_bounds))
                (F32.of_double (ZMax clipping_bounds))) in
  set_func c box.

Definition SetSphereClip (c : Clip) (center : Double3) (radius : Scalar) : Clip :=
  let vec_center := to_Vec3f center in
  let r := F32.of_double radius in
  set_func c (Sphere vec_center r).

Definition SetPlaneClip (c : Clip) (origin normal : Double3) : Clip :=
  let vec_origin := to_Vec3f origin in
  let vec_normal := to_Vec3f normal in
  set_func c (Plane vec_origin vec_normal).

(** [vtkm::Normalize(a[i])] on an element of a local array. *)
Definition normalize_at (a : list Vec3) (i : Z) : outcome (list Vec3) :=
  v ← rd a i; wr a i (Normalize v).

Definition Set2PlaneClip (c : Clip) (origin1 normal1 origin2 normal2 : Double3)
    : outcome Clip :=
  let plane_points := [to_Vec3f origin1; to_Vec3f origin2; vzero] in
  let plane_normals := [to_Vec3f normal1; to_Vec3f normal2; vzero] in
  plane_normals ← normalize_at plane_normals 0;
  plane_normals ← normalize_at plane_normals 1;
  planes ← MultiPlane.make plane_points plane_normals 2;
  Returns (set_func c (MultiPlaneFunction planes)).

Definition Set3PlaneClip (c : Clip)
    (origin1 normal1 origin2 normal2 origin3 normal3 : Double3) : outcome Clip :=
  let plane_points := [to_Vec3f origin1; to_Vec3f origin2; to_Vec3f origin3] in
  let plane_normals := [to_Vec3f normal1; to_Vec3f normal2; to_Vec3f normal3] in
  plane_normals ← normalize_at plane_normals 0;
  plane_normals ← normalize_at plane_normals 1;
  plane_normals ← normalize_at plane_normals 2;
  planes ← MultiPlane.make plane_points plane_normals 3;
  Returns (set_func c (MultiPlaneFunction planes)).

(** *** Execution: calls to the collaborators are recorded in a trace, and a
    call either completes, or an exception leaves it, or it indexes the
    input outside its domains. *)
Inductive event : Type :=
| EvClip (dom : Mesh) (func : option ImplicitFunction) (invert : bool)
         (fields : FieldSelection)
| EvClean (data_set : DataSet).

Inductive res (A : Type) : Type :=
| Done (a : A)
| Thrown (e : Exn)
| OutOfRange.
Arguments Done {A} a.
Arguments Thrown {A} e.
Arguments OutOfRange {A}.

Definition M (A : Type) : Type := list event -> list event * res A.

Definition mret {A} (a : A) : M A := fun tr => (tr, Done a).

Definition mbnd {A B} (m : M A) (k : A -> M B) : M B :=
  fun tr =>
    match m tr with
    | (tr', Done a) => k a tr'
    | (tr', Thrown e) => (tr', Thrown e)
    | (tr', OutOfRange) => (tr', OutOfRange)
    end.

Definition of_sum {A} (r : Exn + A) : res A :=
  match r with inl e => Thrown e | inr a => Done a end.

(** [clipper.Run(dom, m_func, m_invert, fields)] and
    [cleaner.SetInput(&data_set); cleaner.Update(); cleaner.GetOutput()]. *)
Definition Run (dom : Mesh) (func : option ImplicitFunction) (invert : bool)
    (fields : FieldSelection) : M Mesh :=
  fun tr => (tr ++ [EvClip dom func invert fields],
             of_sum (vtkmClip_Run dom func invert fields)).

Definition Clean (data_set : DataSet) : M DataSet :=
  fun tr => (tr ++ [EvClean data_set], of_sum (CleanGrid_Update data_set)).

Definition get_domain (d : DataSet) (i : Z) : M (Mesh * Z) :=
  fun tr => (tr, match GetDomain d i with Some x => Done x | None => OutOfRange end).

(** The loop of [DoExecute]: [todo] domains are left, the next one is [i]. *)
Fixpoint DoExecute_loop (c : Clip) (todo : nat) (i : Z) (data_set : DataSet)
    : M DataSet :=
  match todo with
  | O => mret data_set
  | S todo' =>
      mbnd (get_domain (m_input c) i) (fun '(dom, domain_id) =>
      mbnd (Run dom (m_func c) (m_invert c) (GetFieldSelection c)) (fun dataset =>
      DoExecute_loop c todo' (i + 1) (AddDomain data_set dataset domain_id)))
  end.

Definition DoExecute_body (c : Clip) : M Clip :=
  let num_domains := GetNumberOfDomains (m_input c) in
  mbnd (DoExecute_loop c (Z.to_nat num_domains) 0 []) (fun data_set =>
  mbnd (Clean data_set) (fun out =>
  mret (set_output c out))).

(** The filter after the call, the calls made, and how the call ended: an
    exception leaves the filter as it was when it was thrown. *)
Inductive ending : Type :=
| Completed
| Propagated (e : Exn)
| BadIndex.

Definition DoExecute (c : Clip) : Clip * list event * ending :=
  match DoExecute_body c [] with
  | (tr, Done c') => (c', tr, Completed)
  | (tr, Thrown e) => (c, tr, Propagated e)
  | (tr, OutOfRange) => (c, tr, BadIndex)
  end.

End Clip.

Arguments mkClip {Mesh FieldSelection}.
Arguments m_func {Mesh FieldSelection}.
Arguments m_invert {Mesh FieldSelection}.
Arguments m_input {Mesh FieldSelection}.
Arguments m_output {Mesh FieldSelection}.
Arguments m_field_selection {Mesh FieldSelection}.
Arguments set_func {Mesh FieldSelection}.
Arguments set_output {Mesh FieldSelection}.
Arguments new_Clip {Mesh FieldSelection}.
Arguments SetInvertClip {Mesh FieldSelection}.
Arguments SetBoxClip {Mesh FieldSelection}.
Arguments SetSphereClip {Mesh FieldSelection}.
Arguments SetPlaneClip {Mesh FieldSelection}.
Arguments Set2PlaneClip {Mesh FieldSelection}.
Arguments Set3PlaneClip {Mesh FieldSelection}.
Arguments EvClip {Mesh FieldSelection}.
Arguments EvClean {Mesh FieldSelection}.
Arguments Completed {Exn}.
Arguments Propagated {Exn}.
Arguments BadIndex {Exn}.
Arguments DoExecute {Mesh FieldSelection Exn}.
Arguments DoExecute_loop {Mesh FieldSelection Exn}.
Arguments DoExecute_body {Mesh FieldSelection Exn}.
Arguments Done {Exn A}.
Arguments Thrown {Exn A}.
Arguments OutOfRange {Exn A}.
Arguments GetDomain {Mesh}.
Arguments AddDomain {Mesh}.
Arguments GetNumberOfDomains {Mesh}.
Arguments GetFieldSelection {Mesh FieldSelection}.

(* ================================================================== *)
(** ** Definitions used to state the properties *)

Module FloatKey.

(** A key whose lexicographic order is the order [SFcompare] computes on
    the values that are not NaN. *)
Definition key (a : spec_float) : Z * Z * Z :=
  match a with
  | S754_nan => (0, 0, 0)
  | S754_zero _ => (0, 0, 0)
  | S754_infinity true => (-2, 0, 0)
  | S754_infinity false => (2, 0, 0)
  | S754_finite true m e => (-1, - e, - Zpos m)
  | S754_finite false m e => (1, e, Zpos m)
  end.

Definition klt (a b : Z * Z * Z) : Prop :=
  a.1.1 < b.1.1 \/
  (a.1.1 = b.1.1 /\ (a.1.2 < b.1.2 \/ (a.1.2 = b.1.2 /\ a.2 < b.2))).

Definition keq (a b : Z * Z * Z) : Prop :=
  a.1.1 = b.1.1 /\ a.1.2 = b.1.2 /\ a.2 = b.2.

End FloatKey.

(** [d_i]: the value the loops of [Value] and [Gradient] compute for the
    plane of slot [i], [Dot(point - Points[i], Normals[i])]. *)
Definition d (mp : MultiPlane.t) (point : Vec3) (i : Z) : Scalar :=
  Dot (vsub point (nth (Z.to_nat i) (MultiPlane.Points mp) vzero))
      (nth (Z.to_nat i) (MultiPlane.Normals mp) vzero).

(** Two objects agree on the slots below [n]. *)
Definition same_active_slots (a b : MultiPlane.t) (n : Z) : Prop :=
  forall i : nat, Z.of_nat i < n ->
    MultiPlane.Points a !! i = MultiPlane.Points b !! i /\
    MultiPlane.Normals a !! i = MultiPlane.Normals b !! i.

(** The state [(maxVal, maxValIdx)] of the loop of [Gradient] before the
    iteration at [index]: [maxVal] is a number that no earlier value exceeds,
    and either nothing was selected yet, or [maxValIdx] is an earlier plane
    with value [maxVal] and every plane before it is strictly smaller or
    NaN. *)
Definition Gradient_inv (mp : MultiPlane.t) (point : Vec3)
    (index : Z) (maxVal : Scalar) (maxValIdx : Z) : Prop :=
  F32.is_nan maxVal = false /\
  (forall j, 0 <= j < index -> F32.ltb maxVal (d mp point j) = false) /\
  ((maxVal = NegativeInfinity /\ maxValIdx = 0) \/
   (0 <= maxValIdx < index /\ maxVal = d mp point maxValIdx /\
    forall j, 0 <= j < maxValIdx ->
      F32.ltb (d mp point j) maxVal = true \/ F32.is_nan (d mp point j) = true)).

(** Concrete objects for the examples: the planes [x = 1] and [y = 1] with
    normals along the axes, and a point. *)
Definition vZ (a b c : Z) : Vec3 := mkVec3 (F32.of_Z a) (F32.of_Z b) (F32.of_Z c).

Definition two_planes : MultiPlane.t :=
  MultiPlane.mk [vZ 1 0 0; vZ 0 1 0; vzero; vzero; vzero; vzero]
                [vZ 1 0 0; vZ 0 1 0; vzero; vzero; vzero; vzero] 2 1.

(** Two planes through the origin with different normals, for the tie. *)
Definition tied_planes : MultiPlane.t :=
  MultiPlane.mk [vzero; vzero; vzero; vzero; vzero; vzero]
                [vZ 1 0 0; vZ 0 1 0; vzero; vzero; vzero; vzero] 2 1.

(** The statement that slots at and beyond the active count do not matter,
    for two objects and a point. *)
Definition inert_beyond_count (a b : MultiPlane.t) (point : Vec3) : Prop :=
  MultiPlane.m_num_planes a = MultiPlane.m_num_planes b ->
  same_active_slots a b (MultiPlane.m_num_planes a) ->
  MultiPlane.Value a point = MultiPlane.Value b point /\
  MultiPlane.Gradient a point = MultiPlane.Gradient b point.

(** Two objects with no active plane that differ in slot 0 only. *)
Definition no_plane_a : MultiPlane.t := MultiPlane.SetNumPlanes MultiPlane.default 0.

Definition no_plane_b : MultiPlane.t :=
  MultiPlane.mk (MultiPlane.Points MultiPlane.default)
                [vZ 0 0 1; vZ 1 0 0; vzero; vzero; vzero; vzero] 0 2.

(** The arguments with which a call stays inside the arrays and passes the
    assertion. *)
Definition call_ok (c : MultiPlane.call) (mp : MultiPlane.t) : Prop :=
  match c with
  | MultiPlane.CallSetPlanes points normals =>
      (3 <= length points)%nat /\ (3 <= length normals)%nat
  | MultiPlane.CallSetPlane idx _ _ => 0 <= idx < 3
  | MultiPlane.CallValue _ | MultiPlane.CallGradient _ =>
      MultiPlane.m_num_planes mp <= MultiPlane.capacity
  | _ => True
  end.

(** The multi-plane object a builder configures from the converted points
    and the normalized converted normals; the slots the caller does not give
    are zero. *)
Definition planes_of (points normals : list Vec3) (num_planes : Z) : MultiPlane.t :=
  MultiPlane.mk (points ++ [vzero; vzero; vzero]) (normals ++ [vzero; vzero; vzero])
                num_planes 1.

(** The round trip of [Set2PlaneClip] and [GetPlanes], with the normals read
    back equal to the normals given. *)
Definition roundtrip_inputs {Mesh FieldSelection : Type}
    (c : Clip Mesh FieldSelection) (origin1 normal1 origin2 normal2 : Double3)
    : Prop :=
  exists c' planes,
    Set2PlaneClip c origin1 normal1 origin2 normal2 = Returns c' /\
    m_func c' = Some (MultiPlaneFunction planes) /\
    MultiPlane.GetPlanes planes =
      Returns ([to_Vec3f origin1; to_Vec3f origin2; vzero],
               [to_Vec3f normal1; to_Vec3f normal2; vzero]).

(** Doubles with integer values, and a filter with no domain. *)
Definition dZ (a b c : Z) : Double3 := mkDouble3 (F64.of_Z a) (F64.of_Z b) (F64.of_Z c).

Definition empty_clip : Clip Z unit := new_Clip [] tt.

Definition nan3 : Vec3 := mkVec3 S754_nan S754_nan S754_nan.

(** What a setter of the clip function leaves of the filter [c] in [c']. *)
Definition keeps_all_but_func {Mesh FieldSelection : Type}
    (c c' : Clip Mesh FieldSelection) : Prop :=
  m_invert c' = m_invert c /\ m_input c' = m_input c /\
  m_output c' = m_output c /\ m_field_selection c' = m_field_selection c /\
  exists f, m_func c' = Some f.

(** The statement that a plane count outside 2 and 3, or a zero normal given
    to a builder, ends in a failed assertion (in a build with assertions). *)
Definition count_is_asserted (mp : MultiPlane.t) (num : Z) : Prop :=
  num <> 2 -> num <> 3 ->
  MultiPlane.exec true (MultiPlane.CallSetNumPlanes num) mp = AssertionFailed.

Definition zero_normal_is_asserted {Mesh FieldSelection : Type}
    (c : Clip Mesh FieldSelection) (origin1 origin2 normal2 : Double3) : Prop :=
  Set2PlaneClip c origin1 (dZ 0 0 0) origin2 normal2 = AssertionFailed.

Section ExecuteSpec.

Context {Mesh FieldSelection Exn : Type}.
Variable vtkmClip_Run :
  Mesh -> option ImplicitFunction -> bool -> FieldSelection -> Exn + Mesh.
Variable c : Clip Mesh FieldSelection.

(** The call of the clip primitive [DoExecute] makes for a domain. *)
Definition clip_event (x : Mesh * Z) : event Mesh FieldSelection :=
  EvClip x.1 (m_func c) (m_invert c) (GetFieldSelection c).

(** [y] is the mesh the primitive returns for the domain [x], under the
    domain id of [x]. *)
Definition clipped (x y : Mesh * Z) : Prop :=
  vtkmClip_Run x.1 (m_func c) (m_invert c) (GetFieldSelection c) = inr y.1 /\
  y.2 = x.2.

(** The primitive throws [e] on the domain [x]. *)
Definition clip_throws (x : Mesh * Z) (e : Exn) : Prop :=
  vtkmClip_Run x.1 (m_func c) (m_invert c) (GetFieldSelection c) = inl e.

End ExecuteSpec.

(** A concrete run: meshes are integers, the primitive halves a mesh and
    throws on a negative one, the cleanup reverses nothing and returns the
    collection as it is. *)
Definition halve (dom : Z) (f : option ImplicitFunction) (invert : bool)
    (fields : unit) : Z + Z :=
  if dom <? 0 then inl dom else inr (dom / 2).

Definition keep (d : DataSet Z) : Z + DataSet Z := inr d.

Definition good_input : Clip Z unit := new_Clip [(10, 7); (20, 3)] tt.
Definition bad_input : Clip Z unit := new_Clip [(10, 7); (-1, 3); (20, 5)] tt.

(** A sequence of calls on an object, in order; it ends at the first call
    that does not return. *)
Fixpoint run (assertions : bool) (calls : list MultiPlane.call)
    (mp : MultiPlane.t) : outcome MultiPlane.t :=
  match calls with
  | [] => Returns mp
  | c :: rest => mp' ← MultiPlane.exec assertions c mp; run assertions rest mp'
  end.

Fixpoint setter_count (calls : list MultiPlane.call) : Z :=
  match calls with
  | [] => 0
  | c :: rest => (if MultiPlane.is_setter c then 1 else 0) + setter_count rest
  end.

(** The call is not a [SetPlane] on a slot above 2. *)
Definition low_slot (c : MultiPlane.call) : Prop :=
  match c with
  | MultiPlane.CallSetPlane idx _ _ => 0 <= idx < 3
  | _ => True
  end.

(** The slots 3, 4 and 5 of both arrays hold zero vectors. *)
Definition upper_slots_zero (mp : MultiPlane.t) : Prop :=
  drop 3 (MultiPlane.Points mp) = [vzero; vzero; vzero] /\
  drop 3 (MultiPlane.Normals mp) = [vzero; vzero; vzero].

(** Two planes whose normals are NaN, as a builder stores them for zero
    normals, and an object with the count 7. *)
Definition nan_planes : MultiPlane.t :=
  MultiPlane.mk [vZ 1 0 0; vZ 0 1 0; vzero; vzero; vzero; vzero]
                [nan3; nan3; vzero; vzero; vzero; vzero] 2 1.

Definition seven_planes : MultiPlane.t := MultiPlane.SetNumPlanes two_planes 7.

(** The plane [x = 1] stored twice. *)
Definition twice_plane : MultiPlane.t :=
  MultiPlane.mk [vZ 1 0 0; vZ 1 0 0; vzero; vzero; vzero; vzero]
                [vZ 1 0 0; vZ 1 0 0; vzero; vzero; vzero; vzero] 2 1.

(** The five setters of the clip function as one call with its arguments. *)
Inductive surface : Type :=
| BoxArgs (clipping_bounds : Bounds)
| SphereArgs (center : Double3) (radius : Scalar)
| PlaneArgs (origin normal : Double3)
| TwoPlaneArgs (origin1 normal1 origin2 normal2 : Double3)
| ThreePlaneArgs (origin1 normal1 origin2 normal2 origin3 normal3 : Double3).

Definition configure {Mesh FieldSelection : Type}
    (c : Clip Mesh FieldSelection) (s : surface)
    : outcome (Clip Mesh FieldSelection) :=
  match s with
  | BoxArgs b => Returns (SetBoxClip c b)
  | SphereArgs center radius => Returns (SetSphereClip c center radius)
  | PlaneArgs origin normal => Returns (SetPlaneClip c origin normal)
  | TwoPlaneArgs o1 n1 o2 n2 => Set2PlaneClip c o1 n1 o2 n2
  | ThreePlaneArgs o1 n1 o2 n2 o3 n3 => Set3PlaneClip c o1 n1 o2 n2 o3 n3
  end.

(** A cleanup that always throws, for the examples. *)
Definition reject (d : DataSet Z) : Z + DataSet Z := inl 99.

(** A zero normal as a builder can receive it, with any signs. *)
Definition zero_normal (s0 s1 s2 : bool) : Double3 :=
  mkDouble3 (S754_zero s0) (S754_zero s1) (S754_zero s2).

(** The call [r] of a builder returned a filter whose function is a
    multi-plane object with the normal [normal] in the slot [slot] and the
    active count [count]. *)
Definition configures_normal {Mesh FieldSelection : Type}
    (r : outcome (Clip Mesh FieldSelection)) (slot : nat) (normal : Vec3)
    (count : Z) : Prop :=
  exists c' planes,
    r = Returns c' /\
    m_func c' = Some (MultiPlaneFunction planes) /\
    MultiPlane.Normals planes !! slot = Some normal /\
    MultiPlane.m_num_planes planes = count.


(** Unit length with a wide tolerance: the squared length, computed in
    single precision, is strictly between 1/2 and 2. *)
Definition half : spec_float := Eval cbv in F32.div F32.one (F32.of_Z 2).
Definition two : spec_float := Eval cbv in F32.of_Z 2.

Definition roughly_unit (v : Vec3) : Prop :=
  F32.ltb half (MagnitudeSquared v) = true /\
  F32.ltb (MagnitudeSquared v) two = true.


(** The normals [(2^100, 0, 0)] and [(2^-100, 0, 0)], already in single
    precision: the squared length of the first overflows, the one of the
    second underflows to zero. *)
Definition huge_vec : Vec3 := vZ (2 ^ 100) 0 0.

(* ================================================================== *)
(** * Properties *)

(** ** The order of binary32 values *)

Module FloatOrder.
Import FloatKey.

Lemma compare_key (a b : spec_float) :
  F32.is_nan a = false -> F32.is_nan b = false ->
  exists c, SFcompare a b = Some c /\
    match c with
    | Lt => klt (key a) (key b)
    | Eq => keq (key a) (key b)
    | Gt => klt (key b) (key a)
    end.
Proof.
  intros Ha Hb.
  destruct a as [sa|sa| |sa ma ea], b as [sb|sb| |sb mb eb];
    try discriminate; cbn [SFcompare];
    try (destruct sa); try (destruct sb);
    try (eexists; split; [reflexivity|]; unfold klt, keq; cbn; lia).
  all: change (Pos.compare_cont Eq ma mb) with (Pos.compare ma mb).
  all: destruct (Z.compare_spec ea eb); destruct (Pos.compare_spec ma mb);
    eexists; (split; [reflexivity|]); unfold klt, keq; cbn; lia.
Qed.

Lemma compare_nan_l (b : spec_float) : SFcompare S754_nan b = None.
Proof. reflexivity. Qed.

Lemma compare_nan_r (a : spec_float) : SFcompare a S754_nan = None.
Proof. destruct a; reflexivity. Qed.

Lemma is_nan_true (a : spec_float) : F32.is_nan a = true -> a = S754_nan.
Proof. destruct a; cbn; congruence. Qed.

Lemma ltb_spec (a b : spec_float) :
  F32.ltb a b = true <->
  F32.is_nan a = false /\ F32.is_nan b = false /\ klt (key a) (key b).
Proof.
  unfold F32.ltb, SFltb. split.
  - intros H.
    destruct (F32.is_nan a) eqn:Ha.
    { apply is_nan_true in Ha; subst; cbn in H; discriminate. }
    destruct (F32.is_nan b) eqn:Hb.
    { apply is_nan_true in Hb; subst; rewrite compare_nan_r in H; discriminate. }
    destruct (compare_key a b Ha Hb) as (c & Hc & Hk).
    rewrite Hc in H. destruct c; try discriminate. auto.
  - intros (Ha & Hb & Hk).
    destruct (compare_key a b Ha Hb) as (c & Hc & Hk').
    rewrite Hc. destruct c; auto; unfold klt, keq in *; lia.
Qed.

Lemma eqb_spec (a b : spec_float) :
  F32.eqb a b = true <->
  F32.is_nan a = false /\ F32.is_nan b = false /\ keq (key a) (key b).
Proof.
  unfold F32.eqb, SFeqb. split.
  - intros H.
    destruct (F32.is_nan a) eqn:Ha.
    { apply is_nan_true in Ha; subst; cbn in H; discriminate. }
    destruct (F32.is_nan b) eqn:Hb.
    { apply is_nan_true in Hb; subst; rewrite compare_nan_r in H; discriminate. }
    destruct (compare_key a b Ha Hb) as (c & Hc & Hk).
    rewrite Hc in H. destruct c; try discriminate. auto.
  - intros (Ha & Hb & Hk).
    destruct (compare_key a b Ha Hb) as (c & Hc & Hk').
    rewrite Hc. destruct c; auto; unfold klt, keq in *; lia.
Qed.

Lemma leb_spec (a b : spec_float) :
  F32.leb a b = true <->
  F32.is_nan a = false /\ F32.is_nan b = false /\ ~ klt (key b) (key a).
Proof.
  unfold F32.leb, SFleb. split.
  - intros H.
    destruct (F32.is_nan a) eqn:Ha.
    { apply is_nan_true in Ha; subst; cbn in H; discriminate. }
    destruct (F32.is_nan b) eqn:Hb.
    { apply is_nan_true in Hb; subst; rewrite compare_nan_r in H; discriminate. }
    destruct (compare_key a b Ha Hb) as (c & Hc & Hk).
    rewrite Hc in H. destruct c; try discriminate;
      repeat split; auto; unfold klt, keq in *; lia.
  - intros (Ha & Hb & Hk).
    destruct (compare_key a b Ha Hb) as (c & Hc & Hk').
    rewrite Hc. destruct c; auto; contradiction.
Qed.

Lemma ltb_false (a b : spec_float) :
  F32.ltb a b = false <->
  F32.is_nan a = true \/ F32.is_nan b = true \/ ~ klt (key a) (key b).
Proof.
  split.
  - intros H. destruct (F32.is_nan a) eqn:Ha; auto.
    destruct (F32.is_nan b) eqn:Hb; auto.
    right; right. intros Hk.
    assert (F32.ltb a b = true) by (apply ltb_spec; auto). congruence.
  - intros H. destruct (F32.ltb a b) eqn:E; auto.
    apply ltb_spec in E as (Ha & Hb & Hk).
    destruct H as [H|[H|H]]; congruence || contradiction.
Qed.

Lemma ltb_irrefl (a : spec_float) : F32.ltb a a = false.
Proof. apply ltb_false. right; right. unfold klt. lia. Qed.

Lemma ltb_trans (a b c : spec_float) :
  F32.ltb a b = true -> F32.ltb b c = true -> F32.ltb a c = true.
Proof.
  rewrite !ltb_spec. unfold klt. intros (? & ? & ?) (? & ? & ?).
  repeat split; auto. lia.
Qed.

(** [b <= a < c] gives [b < c] when [b] is a number. *)
Lemma not_ltb_ltb_trans (a b c : spec_float) :
  F32.ltb a b = false -> F32.is_nan b = false ->
  F32.ltb a c = true -> F32.ltb b c = true.
Proof.
  rewrite ltb_false, !ltb_spec. unfold klt.
  intros [H|[H|H]] Hb (Ha & Hc & Hk); try congruence.
  repeat split; auto. lia.
Qed.

(** [c <= b <= a] when [b] is a number: [a < c] is excluded. *)
Lemma not_ltb_trans (a b c : spec_float) :
  F32.ltb a b = false -> F32.ltb b c = false -> F32.is_nan b = false ->
  F32.ltb a c = false.
Proof.
  rewrite !ltb_false. unfold klt.
  intros [H|[H|H]] [H'|[H'|H']] Hb; auto; try congruence.
  right; right. lia.
Qed.

(** [a < c <= b] gives [a < b] when [b] is a number. *)
Lemma ltb_not_ltb_trans (a b c : spec_float) :
  F32.ltb a c = true -> F32.ltb b c = false -> F32.is_nan b = false ->
  F32.ltb a b = true.
Proof.
  rewrite ltb_false, !ltb_spec. unfold klt.
  intros (Ha & Hc & Hk) [H|[H|H]] Hb; try congruence.
  repeat split; auto. lia.
Qed.

(** On numbers, [not (a < b)] is [b <= a]. *)
Lemma not_ltb_leb (a b : spec_float) :
  F32.is_nan a = false -> F32.is_nan b = false ->
  F32.ltb a b = false -> F32.leb b a = true.
Proof.
  intros Ha Hb. rewrite ltb_false, leb_spec.
  intros [H|[H|H]]; try congruence. auto.
Qed.

Lemma ltb_not_nan (a b : spec_float) :
  F32.ltb a b = true -> F32.is_nan a = false /\ F32.is_nan b = false.
Proof. rewrite ltb_spec. tauto. Qed.

(** Only NaN and minus infinity are not above minus infinity. *)
Lemma not_above_neg_inf (d : spec_float) :
  F32.ltb NegativeInfinity d = false ->
  F32.is_nan d = true \/ d = NegativeInfinity.
Proof.
  destruct d as [s|[|]| |[|] m e]; cbn; intros H; auto; discriminate H.
Qed.

End FloatOrder.

(* ------------------------------------------------------------------ *)
(** ** Arrays *)

Lemma rd_nth (a : list Vec3) (i : Z) :
  0 <= i < Z.of_nat (length a) -> rd a i = Returns (nth (Z.to_nat i) a vzero).
Proof.
  intros Hi. unfold rd.
  destruct (Z.ltb_spec i 0); [lia|].
  destruct (a !! Z.to_nat i) as [v|] eqn:E.
  - f_equal. symmetry. apply nth_lookup_Some with (d := vzero) in E. exact E.
  - apply lookup_ge_None in E. lia.
Qed.

Lemma rd_lookup (a b : list Vec3) (i : Z) :
  0 <= i -> a !! Z.to_nat i = b !! Z.to_nat i -> rd a i = rd b i.
Proof.
  intros Hi E. unfold rd. rewrite E. reflexivity.
Qed.

Lemma plane_val_d (mp : MultiPlane.t) (point : Vec3) (i : Z) :
  MultiPlane.wf mp -> 0 <= i < MultiPlane.capacity ->
  MultiPlane.plane_val mp point i = Returns (d mp point i).
Proof.
  intros [Hp Hn] Hi. unfold MultiPlane.capacity in Hi.
  unfold MultiPlane.plane_val.
  rewrite !rd_nth by lia. reflexivity.
Qed.

(* ------------------------------------------------------------------ *)
(** ** MultiPlane::Value *)

Section ValueLoop.

Variable mp : MultiPlane.t.
Variable point : Vec3.
Hypothesis Hwf : MultiPlane.wf mp.

Lemma Max_not_nan (x y : spec_float) :
  F32.is_nan x = false -> F32.is_nan (Max x y) = false.
Proof.
  intros Hx. unfold Max. destruct (F32.ltb x y) eqn:E; auto.
  apply FloatOrder.ltb_not_nan in E. tauto.
Qed.

(** What the loop returns when it starts at [index] with [maxVal = acc]:
    a number that no value of the planes it visits exceeds, that is not
    below [acc], and that is [acc] or the value of a visited plane. *)
Lemma Value_loop_spec (todo : nat) :
  forall (index : Z) (acc : spec_float),
    0 <= index -> index + Z.of_nat todo <= MultiPlane.capacity ->
    F32.is_nan acc = false ->
    exists v,
      MultiPlane.Value_loop mp point todo index acc = Returns v /\
      F32.is_nan v = false /\
      F32.ltb v acc = false /\
      (forall i, index <= i < index + Z.of_nat todo ->
                 F32.ltb v (d mp point i) = false) /\
      (v = acc \/
       exists i, index <= i < index + Z.of_nat todo /\ v = d mp point i).
Proof.
  induction todo as [|todo IH]; intros index acc Hidx Hcap Hacc.
  - exists acc. cbn. repeat split; auto.
    + apply FloatOrder.ltb_irrefl.
    + intros i Hi. lia.
  - cbn [MultiPlane.Value_loop].
    rewrite plane_val_d by (auto; unfold MultiPlane.capacity in *; lia).
    cbn [mbind outcome_bind obind].
    destruct (IH (index + 1) (Max acc (d mp point index)))
      as (v & Hv & Hnan & Hge & Hub & Hatt);
      [lia | lia | apply Max_not_nan; exact Hacc |].
    exists v. split; [exact Hv|]. split; [exact Hnan|].
    unfold Max in Hge, Hatt.
    destruct (F32.ltb acc (d mp point index)) eqn:E.
    + (* the plane at [index] replaced [acc] *)
      assert (Hacc_v : F32.ltb v acc = false).
      { destruct (F32.ltb v acc) eqn:E'; auto.
        rewrite (FloatOrder.ltb_trans _ _ _ E' E) in Hge. discriminate. }
      split; [exact Hacc_v|]. split.
      * intros i Hi. destruct (Z.eq_dec i index) as [->|Hne]; auto.
        apply Hub. lia.
      * right. destruct Hatt as [->|(i & Hi & ->)].
        -- exists index. split; [lia|reflexivity].
        -- exists i. split; [lia|reflexivity].
    + split; [exact Hge|]. split.
      * intros i Hi. destruct (Z.eq_dec i index) as [->|Hne].
        -- apply FloatOrder.not_ltb_trans with (b := acc); auto.
        -- apply Hub. lia.
      * destruct Hatt as [->|(i & Hi & ->)]; auto.
        right. exists i. split; [lia|reflexivity].
Qed.

End ValueLoop.

(** C1. For every MultiPlane object whose active count [N] is within the six
    declared slots and for every point, [Value] returns a number [v] that is
    the maximum of the values [d_i = Dot(point - Points[i], Normals[i])] of
    the active planes [i < N]: no [d_i] exceeds [v], and [v] is one of the
    [d_i] as soon as one of them is a number (with no plane, or with NaN
    only, [v] is the initial minus infinity). Consequently [v < 0] when every
    [d_i < 0], and [v > 0] when some [d_i > 0]. *)
Theorem Value_is_max (mp : MultiPlane.t) (point : Vec3) :
  MultiPlane.wf mp ->
  MultiPlane.m_num_planes mp <= MultiPlane.capacity ->
  exists v,
    MultiPlane.Value mp point = Returns v /\
    (forall i, 0 <= i < MultiPlane.m_num_planes mp ->
               F32.ltb v (d mp point i) = false) /\
    ((exists i, 0 <= i < MultiPlane.m_num_planes mp /\
                F32.is_nan (d mp point i) = false) ->
     exists i, 0 <= i < MultiPlane.m_num_planes mp /\ v = d mp point i) /\
    ((forall i, 0 <= i < MultiPlane.m_num_planes mp ->
                F32.ltb (d mp point i) F32.zero = true) ->
     F32.ltb v F32.zero = true) /\
    ((exists i, 0 <= i < MultiPlane.m_num_planes mp /\
                F32.ltb F32.zero (d mp point i) = true) ->
     F32.ltb F32.zero v = true).
Proof.
  intros Hwf Hcap. unfold MultiPlane.Value.
  assert (Hcap' : 0 + Z.of_nat (Z.to_nat (MultiPlane.m_num_planes mp))
                  <= MultiPlane.capacity)
    by (unfold MultiPlane.capacity in *; lia).
  destruct (Value_loop_spec mp point Hwf
              (Z.to_nat (MultiPlane.m_num_planes mp)) 0 NegativeInfinity)
    as (v & Hv & Hnan & _ & Hub & Hatt); [lia | exact Hcap' | reflexivity |].
  assert (Hub' : forall i, 0 <= i < MultiPlane.m_num_planes mp ->
                           F32.ltb v (d mp point i) = false).
  { intros i Hi. apply Hub. lia. }
  assert (Hatt' : v = NegativeInfinity \/
                  exists i, 0 <= i < MultiPlane.m_num_planes mp /\ v = d mp point i).
  { destruct Hatt as [->|(i & Hi & ->)]; auto. right. exists i. split; [lia|auto]. }
  exists v. split; [exact Hv|]. split; [exact Hub'|]. split; [|split].
  - intros (i & Hi & Hnum). destruct Hatt' as [->|Hex]; auto.
    exists i. split; [exact Hi|].
    destruct (FloatOrder.not_above_neg_inf _ (Hub' i Hi)) as [Hn| ->];
      [congruence | reflexivity].
  - intros Hneg. destruct Hatt' as [->|(i & Hi & ->)]; [reflexivity|auto].
  - intros (i & Hi & Hpos).
    apply FloatOrder.ltb_not_ltb_trans with (c := d mp point i); auto.
Qed.

Example Value_two_planes :
  MultiPlane.Value two_planes (vZ 3 5 0) = Returns (F32.of_Z 4).
Proof. vm_compute. reflexivity. Qed.

Lemma Value_is_max_witness :
  MultiPlane.wf two_planes /\
  MultiPlane.m_num_planes two_planes <= MultiPlane.capacity /\
  exists v,
    MultiPlane.Value two_planes (vZ 3 5 0) = Returns v /\
    (forall i, 0 <= i < MultiPlane.m_num_planes two_planes ->
               F32.ltb v (d two_planes (vZ 3 5 0) i) = false) /\
    ((exists i, 0 <= i < MultiPlane.m_num_planes two_planes /\
                F32.is_nan (d two_planes (vZ 3 5 0) i) = false) ->
     exists i, 0 <= i < MultiPlane.m_num_planes two_planes /\
               v = d two_planes (vZ 3 5 0) i) /\
    ((forall i, 0 <= i < MultiPlane.m_num_planes two_planes ->
                F32.ltb (d two_planes (vZ 3 5 0) i) F32.zero = true) ->
     F32.ltb v F32.zero = true) /\
    ((exists i, 0 <= i < MultiPlane.m_num_planes two_planes /\
                F32.ltb F32.zero (d two_planes (vZ 3 5 0) i) = true) ->
     F32.ltb F32.zero v = true).
Proof.
  split; [split; reflexivity|].
  split; [vm_compute; discriminate|].
  apply (Value_is_max two_planes (vZ 3 5 0)).
  - split; reflexivity.
  - vm_compute; discriminate.
Defined.

(* ------------------------------------------------------------------ *)
(** ** MultiPlane::Gradient *)

Section GradientLoop.

Variable mp : MultiPlane.t.
Variable point : Vec3.
Hypothesis Hwf : MultiPlane.wf mp.

Lemma Gradient_inv_init : Gradient_inv mp point 0 NegativeInfinity 0.
Proof.
  split; [reflexivity|]. split; [intros j Hj; lia|]. left. auto.
Qed.

(** One iteration keeps the invariant, whichever branch is taken. *)
Lemma Gradient_inv_step (index : Z) (maxVal : spec_float) (maxValIdx : Z) :
  0 <= index ->
  Gradient_inv mp point index maxVal maxValIdx ->
  if F32.ltb maxVal (d mp point index)
  then Gradient_inv mp point (index + 1) (d mp point index) index
  else Gradient_inv mp point (index + 1) maxVal maxValIdx.
Proof.
  intros Hidx (Hnan & Hub & Hsel).
  destruct (F32.ltb maxVal (d mp point index)) eqn:E.
  - destruct (FloatOrder.ltb_not_nan _ _ E) as [_ Hval].
    split; [exact Hval|]. split.
    + intros j Hj. destruct (Z.eq_dec j index) as [->|Hne].
      * apply FloatOrder.ltb_irrefl.
      * destruct (F32.ltb (d mp point index) (d mp point j)) eqn:E'; auto.
        assert (0 <= j < index) as Hj' by lia.
        specialize (Hub j Hj').
        rewrite (FloatOrder.ltb_trans _ _ _ E E') in Hub. discriminate.
    + right. split; [lia|]. split; [reflexivity|].
      intros j Hj.
      destruct (F32.is_nan (d mp point j)) eqn:Hnj; auto.
      left. apply FloatOrder.not_ltb_ltb_trans with (a := maxVal); auto.
  - split; [exact Hnan|]. split.
    + intros j Hj. destruct (Z.eq_dec j index) as [->|Hne]; auto.
      apply Hub. lia.
    + destruct Hsel as [Hsel|(Hk & Hm & Hbefore)]; [left; exact Hsel|].
      right. split; [lia|]. auto.
Qed.

Lemma Gradient_loop_spec (todo : nat) :
  forall (index : Z) (maxVal : spec_float) (maxValIdx : Z),
    0 <= index -> index + Z.of_nat todo <= MultiPlane.capacity ->
    Gradient_inv mp point index maxVal maxValIdx ->
    exists k m,
      MultiPlane.Gradient_loop mp point todo index maxVal maxValIdx = Returns k /\
      Gradient_inv mp point (index + Z.of_nat todo) m k.
Proof.
  induction todo as [|todo IH]; intros index maxVal maxValIdx Hidx Hcap Hinv.
  - exists maxValIdx, maxVal. cbn [MultiPlane.Gradient_loop].
    split; [reflexivity|]. replace (index + Z.of_nat 0) with index by lia.
    exact Hinv.
  - cbn [MultiPlane.Gradient_loop].
    rewrite plane_val_d by (auto; unfold MultiPlane.capacity in *; lia).
    cbn [mbind outcome_bind obind].
    pose proof (Gradient_inv_step index maxVal maxValIdx Hidx Hinv) as Hstep.
    replace (index + Z.of_nat (S todo)) with (index + 1 + Z.of_nat todo) by lia.
    destruct (F32.ltb maxVal (d mp point index)); apply IH; auto; lia.
Qed.

(** What the invariant says once the loop has visited [n >= 1] planes. *)
Lemma Gradient_inv_final (n : Z) (m : spec_float) (k : Z) :
  1 <= n ->
  Gradient_inv mp point n m k ->
  0 <= k < n /\
  (forall j, 0 <= j < n -> F32.ltb (d mp point k) (d mp point j) = false) /\
  (forall j, 0 <= j < k ->
     F32.ltb (d mp point j) (d mp point k) = true \/
     F32.is_nan (d mp point j) = true) /\
  ((exists j, 0 <= j < n /\ F32.ltb NegativeInfinity (d mp point j) = true) ->
   F32.is_nan (d mp point k) = false).
Proof.
  intros Hn (Hnan & Hub & [[-> ->]|(Hk & -> & Hbefore)]).
  - split; [lia|]. split; [|split].
    + intros j Hj.
      destruct (FloatOrder.not_above_neg_inf _ (Hub 0 ltac:(lia))) as [H0|H0].
      * apply FloatOrder.ltb_false. left. exact H0.
      * rewrite H0. apply Hub. exact Hj.
    + intros j Hj. lia.
    + intros (j & Hj & Habove). rewrite (Hub j Hj) in Habove. discriminate.
  - split; [lia|]. split; [exact Hub|]. split; [exact Hbefore|].
    intros _. exact Hnan.
Qed.

End GradientLoop.

(** C2. For every MultiPlane object with active count [1 <= N] within the six
    declared slots and every point, [Gradient] returns the stored normal of
    an active plane [k] whose value [d_k] no active plane exceeds, and every
    active plane before [k] has a strictly smaller value (or NaN): a plane
    whose value equals [d_k] has an index at least [k], so that on exact
    ties the lowest index wins. [d_k] is a number as soon as some active
    value is above minus infinity. *)
Theorem Gradient_is_first_max_normal (mp : MultiPlane.t) (point : Vec3) :
  MultiPlane.wf mp ->
  1 <= MultiPlane.m_num_planes mp <= MultiPlane.capacity ->
  exists k,
    0 <= k < MultiPlane.m_num_planes mp /\
    MultiPlane.Gradient_index mp point = Returns k /\
    MultiPlane.Gradient mp point =
      Returns (nth (Z.to_nat k) (MultiPlane.Normals mp) vzero) /\
    (forall j, 0 <= j < MultiPlane.m_num_planes mp ->
       F32.ltb (d mp point k) (d mp point j) = false) /\
    (forall j, 0 <= j < k ->
       F32.ltb (d mp point j) (d mp point k) = true \/
       F32.is_nan (d mp point j) = true) /\
    (forall j, 0 <= j < MultiPlane.m_num_planes mp ->
       F32.eqb (d mp point j) (d mp point k) = true -> k <= j) /\
    ((exists j, 0 <= j < MultiPlane.m_num_planes mp /\
                F32.ltb NegativeInfinity (d mp point j) = true) ->
     F32.is_nan (d mp point k) = false).
Proof.
  intros Hwf [Hn Hcap].
  set (n := MultiPlane.m_num_planes mp) in *.
  assert (Hcap' : 0 + Z.of_nat (Z.to_nat n) <= MultiPlane.capacity)
    by (unfold MultiPlane.capacity in *; lia).
  destruct (Gradient_loop_spec mp point Hwf (Z.to_nat n) 0 NegativeInfinity 0
              ltac:(lia) Hcap' (Gradient_inv_init mp point))
    as (k & m & Hk & Hinv).
  replace (0 + Z.of_nat (Z.to_nat n)) with n in Hinv by lia.
  destruct (Gradient_inv_final mp point n m k Hn Hinv)
    as (Hrange & Hub & Hbefore & Hnum).
  exists k. split; [exact Hrange|]. split; [exact Hk|]. split; [|split; [|split; [|split]]].
  - unfold MultiPlane.Gradient, MultiPlane.Gradient_index. fold n. rewrite Hk.
    cbn [mbind outcome_bind obind].
    apply rd_nth. destruct Hwf as [_ Hlen]. rewrite Hlen.
    unfold MultiPlane.capacity in *. lia.
  - exact Hub.
  - exact Hbefore.
  - intros j Hj Heq.
    destruct (Z_lt_le_dec j k) as [Hlt|Hle]; [|exact Hle].
    exfalso.
    apply FloatOrder.eqb_spec in Heq as (Hnj & Hnk & Hkeq).
    destruct (Hbefore j ltac:(lia)) as [Hlt'|Hnan']; [|congruence].
    apply FloatOrder.ltb_spec in Hlt' as (_ & _ & Hklt).
    unfold FloatKey.klt, FloatKey.keq in *. lia.
  - exact Hnum.
Qed.

Example Gradient_two_planes :
  MultiPlane.Gradient two_planes (vZ 3 5 0) = Returns (vZ 0 1 0).
Proof. vm_compute. reflexivity. Qed.

(** On a tie ([d_0 = d_1 = 2] at the point [(2, 2, 0)]) slot 0 wins. *)
Example Gradient_tie_lowest_index :
  d tied_planes (vZ 2 2 0) 0 = d tied_planes (vZ 2 2 0) 1 /\
  MultiPlane.Gradient_index tied_planes (vZ 2 2 0) = Returns 0 /\
  MultiPlane.Gradient tied_planes (vZ 2 2 0) = Returns (vZ 1 0 0).
Proof. vm_compute. auto. Qed.

Lemma Gradient_is_first_max_normal_witness :
  MultiPlane.wf two_planes /\
  1 <= MultiPlane.m_num_planes two_planes <= MultiPlane.capacity /\
  exists k,
    0 <= k < MultiPlane.m_num_planes two_planes /\
    MultiPlane.Gradient_index two_planes (vZ 3 5 0) = Returns k /\
    MultiPlane.Gradient two_planes (vZ 3 5 0) =
      Returns (nth (Z.to_nat k) (MultiPlane.Normals two_planes) vzero) /\
    (forall j, 0 <= j < MultiPlane.m_num_planes two_planes ->
       F32.ltb (d two_planes (vZ 3 5 0) k) (d two_planes (vZ 3 5 0) j) = false) /\
    (forall j, 0 <= j < k ->
       F32.ltb (d two_planes (vZ 3 5 0) j) (d two_planes (vZ 3 5 0) k) = true \/
       F32.is_nan (d two_planes (vZ 3 5 0) j) = true) /\
    (forall j, 0 <= j < MultiPlane.m_num_planes two_planes ->
       F32.eqb (d two_planes (vZ 3 5 0) j) (d two_planes (vZ 3 5 0) k) = true ->
       k <= j) /\
    ((exists j, 0 <= j < MultiPlane.m_num_planes two_planes /\
                F32.ltb NegativeInfinity (d two_planes (vZ 3 5 0) j) = true) ->
     F32.is_nan (d two_planes (vZ 3 5 0) k) = false).
Proof.
  split; [split; reflexivity|].
  split; [split; vm_compute; discriminate|].
  apply (Gradient_is_first_max_normal two_planes (vZ 3 5 0)).
  - split; reflexivity.
  - split; vm_compute; discriminate.
Defined.

(* ------------------------------------------------------------------ *)
(** ** Slots at and beyond the active count *)

Section Inert.

Variables a b : MultiPlane.t.
Variable point : Vec3.
Variable n : Z.
Hypothesis Hsame : same_active_slots a b n.

Lemma plane_val_same (i : Z) :
  0 <= i < n ->
  MultiPlane.plane_val a point i = MultiPlane.plane_val b point i.
Proof.
  intros Hi. unfold MultiPlane.plane_val.
  destruct (Hsame (Z.to_nat i)) as [Hp Hn]; [lia|].
  rewrite (rd_lookup _ _ i (proj1 Hi) Hp), (rd_lookup _ _ i (proj1 Hi) Hn).
  reflexivity.
Qed.

Lemma Value_loop_same (todo : nat) :
  forall (index : Z) (acc : spec_float),
    0 <= index -> index + Z.of_nat todo <= n ->
    MultiPlane.Value_loop a point todo index acc =
    MultiPlane.Value_loop b point todo index acc.
Proof.
  induction todo as [|todo IH]; intros index acc Hidx Hn; [reflexivity|].
  cbn [MultiPlane.Value_loop].
  rewrite plane_val_same by lia.
  destruct (MultiPlane.plane_val b point index); cbn; auto.
  apply IH; lia.
Qed.

Lemma Gradient_loop_same (todo : nat) :
  forall (index : Z) (maxVal : spec_float) (maxValIdx : Z),
    0 <= index -> index + Z.of_nat todo <= n ->
    MultiPlane.Gradient_loop a point todo index maxVal maxValIdx =
    MultiPlane.Gradient_loop b point todo index maxVal maxValIdx.
Proof.
  induction todo as [|todo IH]; intros index maxVal maxValIdx Hidx Hn;
    [reflexivity|].
  cbn [MultiPlane.Gradient_loop].
  rewrite plane_val_same by lia.
  destruct (MultiPlane.plane_val b point index) as [val| |]; cbn; auto.
  destruct (F32.ltb maxVal val); apply IH; lia.
Qed.

(** The index the loop returns is the initial one or a visited one. *)
Lemma Gradient_loop_range (mp : MultiPlane.t) (todo : nat) :
  forall (index : Z) (maxVal : spec_float) (maxValIdx k : Z),
    MultiPlane.Gradient_loop mp point todo index maxVal maxValIdx = Returns k ->
    k = maxValIdx \/ index <= k < index + Z.of_nat todo.
Proof.
  induction todo as [|todo IH]; intros index maxVal maxValIdx k H.
  - cbn in H. injection H as ->. auto.
  - cbn [MultiPlane.Gradient_loop] in H.
    destruct (MultiPlane.plane_val mp point index) as [val| |];
      cbn in H; try discriminate.
    destruct (F32.ltb maxVal val); apply IH in H; lia.
Qed.

End Inert.

(** C7, as amended. For two MultiPlane objects with the same active count [N]
    and the same points and normals in every slot below [N], whatever the
    other slots hold, [Value] gives the same result at every point, and so
    does [Gradient] when [N >= 1]. *)
Theorem slots_beyond_count_inert (a b : MultiPlane.t) (point : Vec3) :
  MultiPlane.m_num_planes a = MultiPlane.m_num_planes b ->
  same_active_slots a b (MultiPlane.m_num_planes a) ->
  MultiPlane.Value a point = MultiPlane.Value b point /\
  (1 <= MultiPlane.m_num_planes a ->
   MultiPlane.Gradient a point = MultiPlane.Gradient b point).
Proof.
  intros Hnum Hsame.
  assert (Hsame' : same_active_slots a b
                     (Z.of_nat (Z.to_nat (MultiPlane.m_num_planes a)))).
  { intros i Hi. apply Hsame. lia. }
  split.
  - unfold MultiPlane.Value. rewrite <- Hnum.
    apply (Value_loop_same a b point _ Hsame'); lia.
  - intros Hn. unfold MultiPlane.Gradient, MultiPlane.Gradient_index.
    rewrite <- Hnum.
    rewrite (Gradient_loop_same a b point _ Hsame') by lia.
    destruct (MultiPlane.Gradient_loop b point
                (Z.to_nat (MultiPlane.m_num_planes a)) 0 NegativeInfinity 0)
      as [k| |] eqn:E; cbn; auto.
    apply Gradient_loop_range in E.
    assert (Hk : 0 <= k < MultiPlane.m_num_planes a) by lia.
    apply rd_lookup; [lia|].
    apply (Hsame (Z.to_nat k)). lia.
Qed.

Lemma slots_beyond_count_inert_witness :
  MultiPlane.Value two_planes (vZ 3 5 0)
  = MultiPlane.Value
      (MultiPlane.mk (MultiPlane.Points two_planes)
         [vZ 1 0 0; vZ 0 1 0; vZ 7 7 7; vzero; vzero; vzero] 2 5) (vZ 3 5 0) /\
  (1 <= MultiPlane.m_num_planes two_planes ->
   MultiPlane.Gradient two_planes (vZ 3 5 0)
   = MultiPlane.Gradient
      (MultiPlane.mk (MultiPlane.Points two_planes)
         [vZ 1 0 0; vZ 0 1 0; vZ 7 7 7; vzero; vzero; vzero] 2 5) (vZ 3 5 0)).
Proof.
  apply (slots_beyond_count_inert two_planes
           (MultiPlane.mk (MultiPlane.Points two_planes)
              [vZ 1 0 0; vZ 0 1 0; vZ 7 7 7; vzero; vzero; vzero] 2 5)
           (vZ 3 5 0)).
  - reflexivity.
  - intros i Hi. change (Z.of_nat i < 2) in Hi.
    destruct i as [|[|i]]; [split; reflexivity | split; reflexivity | lia].
Defined.

(** Both objects are states of the class: the first is the default object
    after [SetNumPlanes(0)], the second the default object after
    [SetPlane(0, ...)] and [SetNumPlanes(0)]. *)
Example no_plane_b_reachable :
  MultiPlane.SetPlane true MultiPlane.default 0
    (mkVec3 F32.neg_zero F32.zero F32.zero) (vZ 0 0 1)
  ≫= (fun mp => Returns (MultiPlane.SetNumPlanes mp 0)) = Returns no_plane_b.
Proof. vm_compute. reflexivity. Qed.

(** With no active plane, [Gradient] returns the normal of slot 0, which is
    then not an active slot: the two objects have the same count 0 and
    nothing to agree on, and their gradients differ. *)
Lemma inert_beyond_count_counterexample :
  ~ inert_beyond_count no_plane_a no_plane_b (vZ 0 0 0).
Proof.
  intros H.
  destruct H as [_ HG].
  - reflexivity.
  - intros i Hi. change (Z.of_nat i < 0) in Hi. lia.
  - vm_compute in HG. discriminate HG.
Qed.

(* ------------------------------------------------------------------ *)
(** ** The setters of MultiPlane and the modification count *)

Lemma wr_length (a r : list Vec3) (i : Z) (v : Vec3) :
  wr a i v = Returns r -> length r = length a.
Proof.
  unfold wr. destruct (i <? 0); [discriminate|].
  destruct (a !! Z.to_nat i); [|discriminate].
  intros H. injection H as <-. apply length_insert.
Qed.

Lemma wr_not_assert (a : list Vec3) (i : Z) (v : Vec3) :
  wr a i v <> AssertionFailed.
Proof.
  unfold wr. destruct (i <? 0); [discriminate|].
  destruct (a !! Z.to_nat i); discriminate.
Qed.

Lemma copy_slots_length (idxs : list Z) :
  forall (src dst r : list Vec3),
    MultiPlane.copy_slots idxs src dst = Returns r -> length r = length dst.
Proof.
  induction idxs as [|i idxs IH]; intros src dst r H; cbn in H.
  - injection H as <-. reflexivity.
  - destruct (rd src i) as [v| |]; cbn in H; try discriminate.
    destruct (wr dst i v) as [dst'| |] eqn:E; cbn in H; try discriminate.
    apply IH in H. apply wr_length in E. congruence.
Qed.

Lemma wr_returns (a : list Vec3) (i : Z) (v : Vec3) :
  0 <= i < Z.of_nat (length a) -> wr a i v = Returns (<[Z.to_nat i := v]> a).
Proof.
  intros Hi. unfold wr.
  destruct (Z.ltb_spec i 0); [lia|].
  destruct (a !! Z.to_nat i) eqn:E; [reflexivity|].
  apply lookup_ge_None in E. lia.
Qed.

(** The three copies succeed on arrays of at least three elements, and
    replace exactly the first three elements of the destination. *)
Lemma copy_slots_3 (src dst : list Vec3) :
  (3 <= length src)%nat -> (3 <= length dst)%nat ->
  MultiPlane.copy_slots [0; 1; 2] src dst = Returns (take 3 src ++ drop 3 dst).
Proof.
  intros Hs Hd.
  destruct src as [|s0 [|s1 [|s2 src]]]; cbn in Hs; try lia.
  destruct dst as [|t0 [|t1 [|t2 dst]]]; cbn in Hd; try lia.
  reflexivity.
Qed.

Lemma SetPlanes_returns (mp : MultiPlane.t) (points normals : list Vec3) :
  MultiPlane.wf mp -> (3 <= length points)%nat -> (3 <= length normals)%nat ->
  MultiPlane.SetPlanes mp points normals =
  Returns (MultiPlane.mk (take 3 points ++ drop 3 (MultiPlane.Points mp))
                         (take 3 normals ++ drop 3 (MultiPlane.Normals mp))
                         (MultiPlane.m_num_planes mp)
                         (MultiPlane.ModifiedCount mp + 1)).
Proof.
  intros [Hp Hn] Hps Hns. unfold MultiPlane.SetPlanes.
  rewrite !copy_slots_3 by lia. reflexivity.
Qed.

Lemma SetPlane_returns (assertions : bool) (mp : MultiPlane.t) (idx : Z)
    (point normal : Vec3) :
  MultiPlane.wf mp -> 0 <= idx < 3 ->
  MultiPlane.SetPlane assertions mp idx point normal =
  Returns (MultiPlane.mk (<[Z.to_nat idx := point]> (MultiPlane.Points mp))
                         (<[Z.to_nat idx := normal]> (MultiPlane.Normals mp))
                         (MultiPlane.m_num_planes mp)
                         (MultiPlane.ModifiedCount mp + 1)).
Proof.
  intros [Hp Hn] Hi. unfold MultiPlane.SetPlane, MultiPlane.VTKM_ASSERT.
  destruct (Z.leb_spec 0 idx); [|lia].
  destruct (Z.ltb_spec idx 3); [|lia]. cbn [andb negb].
  rewrite andb_false_r. cbn [mbind outcome_bind obind].
  rewrite !wr_returns by lia. reflexivity.
Qed.

(** In a build with assertions the assertion of [SetPlane] fails on the
    indices outside 0..2. *)
Lemma SetPlane_asserts (mp : MultiPlane.t) (idx : Z) (point normal : Vec3) :
  ~ (0 <= idx < 3) ->
  MultiPlane.SetPlane true mp idx point normal = AssertionFailed.
Proof.
  intros Hi. unfold MultiPlane.SetPlane, MultiPlane.VTKM_ASSERT.
  destruct (Z.leb_spec 0 idx); destruct (Z.ltb_spec idx 3);
    cbn [andb negb]; try reflexivity; lia.
Qed.

(** In a build without assertions [SetPlane] writes any of the six slots. *)
Lemma SetPlane_unchecked (mp : MultiPlane.t) (idx : Z) (point normal : Vec3) :
  MultiPlane.wf mp -> 0 <= idx < MultiPlane.capacity ->
  MultiPlane.SetPlane false mp idx point normal =
  Returns (MultiPlane.mk (<[Z.to_nat idx := point]> (MultiPlane.Points mp))
                         (<[Z.to_nat idx := normal]> (MultiPlane.Normals mp))
                         (MultiPlane.m_num_planes mp)
                         (MultiPlane.ModifiedCount mp + 1)).
Proof.
  intros [Hp Hn] Hi. unfold MultiPlane.capacity in Hi.
  unfold MultiPlane.SetPlane, MultiPlane.VTKM_ASSERT.
  cbn [andb mbind outcome_bind obind].
  rewrite !wr_returns by lia. reflexivity.
Qed.

Lemma Value_returns (mp : MultiPlane.t) (point : Vec3) :
  MultiPlane.wf mp -> MultiPlane.m_num_planes mp <= MultiPlane.capacity ->
  exists v, MultiPlane.Value mp point = Returns v.
Proof.
  intros Hwf Hcap.
  destruct (Value_loop_spec mp point Hwf
              (Z.to_nat (MultiPlane.m_num_planes mp)) 0 NegativeInfinity)
    as (v & Hv & _); [lia | unfold MultiPlane.capacity in *; lia | reflexivity |].
  exists v. exact Hv.
Qed.

Lemma Gradient_returns (mp : MultiPlane.t) (point : Vec3) :
  MultiPlane.wf mp -> MultiPlane.m_num_planes mp <= MultiPlane.capacity ->
  exists n, MultiPlane.Gradient mp point = Returns n.
Proof.
  intros Hwf Hcap. unfold MultiPlane.capacity in Hcap.
  destruct (Gradient_loop_spec mp point Hwf
              (Z.to_nat (MultiPlane.m_num_planes mp)) 0 NegativeInfinity 0)
    as (k & m & Hk & _);
    [lia | unfold MultiPlane.capacity; lia | apply Gradient_inv_init |].
  pose proof (Gradient_loop_range point mp _ _ _ _ _ Hk) as Hr.
  unfold MultiPlane.Gradient, MultiPlane.Gradient_index. rewrite Hk.
  cbn [mbind outcome_bind obind].
  eexists. apply rd_nth. destruct Hwf as [_ Hlen]. rewrite Hlen. lia.
Qed.

Lemma GetPlanes_returns (mp : MultiPlane.t) :
  MultiPlane.wf mp ->
  MultiPlane.GetPlanes mp =
  Returns (take 3 (MultiPlane.Points mp), take 3 (MultiPlane.Normals mp)).
Proof.
  intros [Hp Hn]. unfold MultiPlane.GetPlanes.
  rewrite !copy_slots_3 by (cbn; lia). cbn.
  rewrite !app_nil_r. reflexivity.
Qed.

(** The shape of the arrays is an invariant of every call. *)
Lemma exec_wf (assertions : bool) (c : MultiPlane.call)
    (mp mp' : MultiPlane.t) :
  MultiPlane.wf mp -> MultiPlane.exec assertions c mp = Returns mp' ->
  MultiPlane.wf mp'.
Proof.
  intros [Hp Hn] H. destruct c; cbn [MultiPlane.exec] in H.
  - unfold MultiPlane.SetPlanes in H.
    destruct (MultiPlane.copy_slots _ points _) as [ps| |] eqn:E1;
      cbn [mbind outcome_bind obind] in H; try discriminate.
    destruct (MultiPlane.copy_slots _ normals _) as [ns| |] eqn:E2;
      cbn [mbind outcome_bind obind] in H; try discriminate.
    injection H as <-. apply copy_slots_length in E1, E2.
    split; cbn; congruence.
  - unfold MultiPlane.SetPlane, MultiPlane.VTKM_ASSERT in H.
    destruct (assertions && negb _);
      cbn [mbind outcome_bind obind] in H; [discriminate|].
    destruct (wr _ idx point) as [ps| |] eqn:E1; cbn [mbind outcome_bind obind] in H; try discriminate.
    destruct (wr _ idx normal) as [ns| |] eqn:E2; cbn [mbind outcome_bind obind] in H; try discriminate.
    injection H as <-. apply wr_length in E1, E2.
    split; cbn; congruence.
  - injection H as <-. split; assumption.
  - destruct (MultiPlane.GetPlanes mp); cbn [mbind outcome_bind obind] in H; try discriminate.
    injection H as <-. split; assumption.
  - injection H as <-. split; assumption.
  - injection H as <-. split; assumption.
  - destruct (MultiPlane.Value mp point); cbn [mbind outcome_bind obind] in H; try discriminate.
    injection H as <-. split; assumption.
  - destruct (MultiPlane.Gradient mp point); cbn [mbind outcome_bind obind] in H; try discriminate.
    injection H as <-. split; assumption.
Qed.

(** C9. Every call of [SetPlanes], [SetPlane] or [SetNumPlanes] that returns
    has incremented the modification count by one; every call of an accessor
    ([GetPlanes], [GetPoints], [GetNormals], [Value], [Gradient]) that
    returns has left the whole object, and so the count, as it was. On an
    object with its six declared slots a call returns whenever its
    arguments are in range. All of this holds in a build with assertions
    and in a build without. *)
Theorem setters_mark_modified (assertions : bool) (c : MultiPlane.call)
    (mp : MultiPlane.t) :
  (forall mp', MultiPlane.exec assertions c mp = Returns mp' ->
     MultiPlane.ModifiedCount mp' =
       MultiPlane.ModifiedCount mp + (if MultiPlane.is_setter c then 1 else 0) /\
     (MultiPlane.is_setter c = false -> mp' = mp)) /\
  (MultiPlane.wf mp -> call_ok c mp ->
   exists mp', MultiPlane.exec assertions c mp = Returns mp').
Proof.
  split.
  - intros mp' H. destruct c; cbn [MultiPlane.exec] in H; cbn [MultiPlane.is_setter].
    + unfold MultiPlane.SetPlanes in H.
      destruct (MultiPlane.copy_slots _ points _); cbn [mbind outcome_bind obind] in H; try discriminate.
      destruct (MultiPlane.copy_slots _ normals _); cbn [mbind outcome_bind obind] in H; try discriminate.
      injection H as <-. split; [reflexivity|discriminate].
    + unfold MultiPlane.SetPlane, MultiPlane.VTKM_ASSERT in H.
      destruct (assertions && negb _);
        cbn [mbind outcome_bind obind] in H; [discriminate|].
      destruct (wr _ idx point); cbn [mbind outcome_bind obind] in H; try discriminate.
      destruct (wr _ idx normal); cbn [mbind outcome_bind obind] in H; try discriminate.
      injection H as <-. split; [reflexivity|discriminate].
    + injection H as <-. split; [reflexivity|discriminate].
    + destruct (MultiPlane.GetPlanes mp); cbn [mbind outcome_bind obind] in H; try discriminate.
      injection H as <-. split; [lia|reflexivity].
    + injection H as <-. split; [lia|reflexivity].
    + injection H as <-. split; [lia|reflexivity].
    + destruct (MultiPlane.Value mp point); cbn [mbind outcome_bind obind] in H; try discriminate.
      injection H as <-. split; [lia|reflexivity].
    + destruct (MultiPlane.Gradient mp point); cbn [mbind outcome_bind obind] in H; try discriminate.
      injection H as <-. split; [lia|reflexivity].
  - intros Hwf Hok. destruct c; cbn in Hok; cbn [MultiPlane.exec].
    + destruct Hok. rewrite SetPlanes_returns by auto. eauto.
    + rewrite SetPlane_returns by auto. eauto.
    + eauto.
    + rewrite GetPlanes_returns by auto. cbn. eauto.
    + eauto.
    + eauto.
    + destruct (Value_returns mp point Hwf Hok) as [v ->]. cbn. eauto.
    + destruct (Gradient_returns mp point Hwf Hok) as [v ->]. cbn. eauto.
Qed.

Lemma setters_mark_modified_witness :
  MultiPlane.wf two_planes /\
  call_ok (MultiPlane.CallSetPlane 1 (vZ 0 0 2) (vZ 0 0 1)) two_planes /\
  exists mp',
    MultiPlane.exec true (MultiPlane.CallSetPlane 1 (vZ 0 0 2) (vZ 0 0 1))
      two_planes = Returns mp' /\
    MultiPlane.ModifiedCount mp' = MultiPlane.ModifiedCount two_planes + 1.
Proof.
  split; [split; reflexivity|].
  split; [cbn; lia|].
  destruct (setters_mark_modified true
              (MultiPlane.CallSetPlane 1 (vZ 0 0 2) (vZ 0 0 1)) two_planes)
    as [Hcount Hret].
  destruct Hret as [mp' E]; [split; reflexivity | cbn; lia |].
  exists mp'. split; [exact E|]. apply (Hcount mp' E).
Defined.

(* ------------------------------------------------------------------ *)
(** ** The plane builders of Clip *)

Section Builders.

Context {Mesh FieldSelection : Type}.
Implicit Types c : Clip Mesh FieldSelection.




(** The object a builder makes has its six slots, so that [Value] and
    [Gradient] are defined on it for the counts 2 and 3. *)
Lemma planes_of_wf (points normals : list Vec3) (num_planes : Z) :
  length points = 3%nat -> length normals = 3%nat ->
  MultiPlane.wf (planes_of points normals num_planes).
Proof.
  intros Hp Hn. split; cbn; rewrite length_app; cbn; lia.
Qed.

Lemma make_planes_of (p0 p1 p2 n0 n1 n2 : Vec3) (num_planes : Z) :
  MultiPlane.make [p0; p1; p2] [n0; n1; n2] num_planes =
    Returns (planes_of [p0; p1; p2] [n0; n1; n2] num_planes).
Proof. reflexivity. Qed.

(** C8, as amended. After [Set2PlaneClip], [GetPlanes] on the configured
    object returns, in slots 0 and 1, the origins given converted to float
    and the converted normals given after normalization, and in slot 2 the
    zero point and the zero normal; [GetPoints] and [GetNormals] return the
    arrays that start with these three slots. *)
Theorem Set2PlaneClip_GetPlanes_roundtrip c
    (origin1 normal1 origin2 normal2 : Double3) :
  exists c' planes,
    Set2PlaneClip c origin1 normal1 origin2 normal2 = Returns c' /\
    m_func c' = Some (MultiPlaneFunction planes) /\
    MultiPlane.GetPlanes planes =
      Returns ([to_Vec3f origin1; to_Vec3f origin2; vzero],
               [Normalize (to_Vec3f normal1); Normalize (to_Vec3f normal2); vzero]) /\
    take 3 (MultiPlane.GetPoints planes) =
      [to_Vec3f origin1; to_Vec3f origin2; vzero] /\
    take 3 (MultiPlane.GetNormals planes) =
      [Normalize (to_Vec3f normal1); Normalize (to_Vec3f normal2); vzero].
Proof.
  do 2 eexists. split; [reflexivity|]. split; [reflexivity|].
  repeat split; reflexivity.
Qed.

(** C10. [SetInvertClip] changes the invert flag only: the configured
    function, the input, the output and the field selection stay. Each of
    [SetBoxClip], [SetSphereClip], [SetPlaneClip], [Set2PlaneClip] and
    [Set3PlaneClip] returns a filter with a newly configured function and
    with the invert flag, the input, the output and the field selection it
    had. *)
Theorem setters_frame c (invert : bool) (bounds : Bounds)
    (center : Double3) (radius : Scalar)
    (o1 n1 o2 n2 o3 n3 : Double3) :
  (let c' := SetInvertClip c invert in
   m_invert c' = invert /\ m_func c' = m_func c /\ m_input c' = m_input c /\
   m_output c' = m_output c /\ m_field_selection c' = m_field_selection c) /\
  keeps_all_but_func c (SetBoxClip c bounds) /\
  keeps_all_but_func c (SetSphereClip c center radius) /\
  keeps_all_but_func c (SetPlaneClip c o1 n1) /\
  (exists c', Set2PlaneClip c o1 n1 o2 n2 = Returns c' /\
              keeps_all_but_func c c') /\
  (exists c', Set3PlaneClip c o1 n1 o2 n2 o3 n3 = Returns c' /\
              keeps_all_but_func c c').
Proof.
  unfold keeps_all_but_func.
  split; [cbn; auto|].
  split; [cbn; eauto 6|]. split; [cbn; eauto 6|]. split; [cbn; eauto 6|].
  split; (eexists; split; [reflexivity|]; cbn; eauto 6).
Qed.

End Builders.

(** The conversion rounds: the double nearest to 1/10 becomes the float
    [13421773 * 2^-27]. *)
Example of_double_tenth :
  F32.of_double (F64.div (F64.of_Z 1) (F64.of_Z 10)) =
    S754_finite false 13421773 (-27).
Proof. vm_compute. reflexivity. Qed.

Example Normalize_axis : Normalize (vZ 0 0 2) = vZ 0 0 1.
Proof. vm_compute. reflexivity. Qed.

(** In binary32 the normalized vector has length one up to rounding only:
    for [(1, 1, 0)] the squared length is [1 - 2^-24]. *)
Example Normalize_diagonal :
  MagnitudeSquared (Normalize (vZ 1 1 0)) = S754_finite false 16777215 (-24).
Proof. vm_compute. reflexivity. Qed.

(** The double [2^100] is a float, and not zero. *)
Example huge_normal_nonzero :
  to_Vec3f (dZ (2 ^ 100) 0 0) = huge_vec /\
  huge_vec = mkVec3 (S754_finite false 8388608 77) F32.zero F32.zero.
Proof. vm_compute. auto. Qed.

(** With a wide tolerance the normalized [(3, 0, 4)] has unit length. *)
Example roughly_unit_3_0_4 : roughly_unit (Normalize (vZ 3 0 4)).
Proof. split; vm_compute; reflexivity. Qed.



(** The normal [(2, 0, 0)] is read back as [(1, 0, 0)]. *)
Lemma roundtrip_inputs_counterexample :
  ~ roundtrip_inputs empty_clip (dZ 1 0 0) (dZ 2 0 0) (dZ 0 1 0) (dZ 0 1 0).
Proof.
  intros (c' & planes & Hset & Hf & Hget).
  vm_compute in Hset. injection Hset as <-.
  cbn in Hf. injection Hf as <-.
  vm_compute in Hget. discriminate Hget.
Qed.

(** With normals of length one along an axis the round trip is exact. *)
Example roundtrip_unit_normals :
  roundtrip_inputs empty_clip (dZ 1 0 0) (dZ 1 0 0) (dZ 0 1 0) (dZ 0 1 0).
Proof.
  do 2 eexists. split; [reflexivity|]. split; [reflexivity|].
  vm_compute. reflexivity.
Qed.

(* ------------------------------------------------------------------ *)
(** ** Contract violations at construction *)

Lemma Normalize_zero (s0 s1 s2 : bool) :
  Normalize (mkVec3 (S754_zero s0) (S754_zero s1) (S754_zero s2)) = nan3.
Proof. destruct s0, s1, s2; vm_compute; reflexivity. Qed.

(** The count 7 is stored by [SetNumPlanes], and a builder given the zero
    normal returns a configured filter: no assertion fails. *)
Lemma contract_violation_counterexample :
  ~ count_is_asserted MultiPlane.default 7 /\
  ~ zero_normal_is_asserted empty_clip (dZ 1 0 0) (dZ 0 1 0) (dZ 0 1 0).
Proof.
  split.
  - intros H. specialize (H ltac:(lia) ltac:(lia)). cbn in H. discriminate H.
  - intros H. vm_compute in H. discriminate H.
Qed.

(** C5, as amended. Neither a plane count outside 2 and 3 nor a zero normal
    is checked, in any build: [SetNumPlanes] and the constructor store any
    count and return, and a builder given a zero normal in any of its normal
    arguments returns a filter whose function has three NaN as the normal of
    that slot, which is what [vtkm::Normalize] makes of a zero vector. The
    only assertion of the file is the [VTKM_ASSERT] of [SetPlane] on the
    slot index: in a build with assertions it fails exactly outside 0..2,
    and in a build without assertions [SetPlane] never ends in a failed
    assertion. *)
Theorem contract_violations_unchecked :
  (forall assertions mp num,
     MultiPlane.exec assertions (MultiPlane.CallSetNumPlanes num) mp =
       Returns (MultiPlane.SetNumPlanes mp num) /\
     MultiPlane.m_num_planes (MultiPlane.SetNumPlanes mp num) = num) /\
  (forall p0 p1 p2 n0 n1 n2 num,
     exists mp,
       MultiPlane.make [p0; p1; p2] [n0; n1; n2] num = Returns mp /\
       MultiPlane.m_num_planes mp = num /\
       take 3 (MultiPlane.Points mp) = [p0; p1; p2] /\
       take 3 (MultiPlane.Normals mp) = [n0; n1; n2]) /\
  (forall (Mesh FieldSelection : Type) (c : Clip Mesh FieldSelection)
          o1 n1 o2 n2 o3 n3 s0 s1 s2,
     let z := zero_normal s0 s1 s2 in
     configures_normal (Set2PlaneClip c o1 z o2 n2) 0 nan3 2 /\
     configures_normal (Set2PlaneClip c o1 n1 o2 z) 1 nan3 2 /\
     configures_normal (Set3PlaneClip c o1 z o2 n2 o3 n3) 0 nan3 3 /\
     configures_normal (Set3PlaneClip c o1 n1 o2 z o3 n3) 1 nan3 3 /\
     configures_normal (Set3PlaneClip c o1 n1 o2 n2 o3 z) 2 nan3 3) /\
  (forall assertions mp idx point normal,
     MultiPlane.SetPlane assertions mp idx point normal = AssertionFailed <->
     assertions = true /\ ~ (0 <= idx < 3)).
Proof.
  split; [|split; [|split]].
  - intros assertions mp num. split; reflexivity.
  - intros. eexists. split; [reflexivity|]. repeat split; reflexivity.
  - intros Mesh FieldSelection c o1 n1 o2 n2 o3 n3 s0 s1 s2 z.
    pose proof (Normalize_zero s0 s1 s2) as Hz.
    unfold configures_normal.
    repeat split; do 2 eexists;
      (split; [reflexivity|]; split; [reflexivity|]; split; [|reflexivity]);
      rewrite <- Hz; reflexivity.
  - intros assertions mp idx point normal. split.
    + intros H. unfold MultiPlane.SetPlane, MultiPlane.VTKM_ASSERT in H.
      destruct assertions; cbn [andb] in H.
      * split; [reflexivity|]. intros Hi.
        destruct (Z.leb_spec 0 idx); [|lia].
        destruct (Z.ltb_spec idx 3); [|lia].
        cbn [andb negb mbind outcome_bind obind] in H.
        destruct (wr _ idx point) as [ps| |] eqn:E1;
          cbn [mbind outcome_bind obind] in H; try discriminate;
          [|exact (wr_not_assert _ _ _ E1)].
        destruct (wr _ idx normal) as [ns| |] eqn:E2;
          cbn [mbind outcome_bind obind] in H; try discriminate.
        exact (wr_not_assert _ _ _ E2).
      * exfalso. cbn [mbind outcome_bind obind] in H.
        destruct (wr _ idx point) as [ps| |] eqn:E1;
          cbn [mbind outcome_bind obind] in H; try discriminate;
          [|exact (wr_not_assert _ _ _ E1)].
        destruct (wr _ idx normal) as [ns| |] eqn:E2;
          cbn [mbind outcome_bind obind] in H; try discriminate.
        exact (wr_not_assert _ _ _ E2).
    + intros [-> Hi]. apply SetPlane_asserts. exact Hi.
Qed.

(* ------------------------------------------------------------------ *)
(** ** Clip::DoExecute *)

Section Execute.

Context {Mesh FieldSelection Exn : Type}.
Variable vtkmClip_Run :
  Mesh -> option ImplicitFunction -> bool -> FieldSelection -> Exn + Mesh.
Variable CleanGrid_Update : DataSet Mesh -> Exn + DataSet Mesh.
Variable c : Clip Mesh FieldSelection.

Local Abbreviation loop := (DoExecute_loop vtkmClip_Run c).
Local Abbreviation ev := (clip_event c).
Local Abbreviation ok := (clipped vtkmClip_Run c).
Local Abbreviation throws := (clip_throws vtkmClip_Run c).

Lemma GetDomain_middle (pre rest : DataSet Mesh) (x : Mesh * Z) :
  GetDomain (pre ++ x :: rest) (Z.of_nat (length pre)) = Some x.
Proof.
  unfold GetDomain.
  destruct (Z.ltb_spec (Z.of_nat (length pre)) 0); [lia|].
  rewrite Nat2Z.id. apply list_lookup_middle. reflexivity.
Qed.

(** The loop on the domains [rest] that follow [pre], when the primitive
    returns a mesh for each of them. *)
Lemma DoExecute_loop_done (rest : DataSet Mesh) :
  forall (pre done acc : DataSet Mesh) (tr : list (event Mesh FieldSelection)),
    m_input c = pre ++ rest ->
    Forall2 ok rest done ->
    loop (length rest) (Z.of_nat (length pre)) acc tr =
      (tr ++ map ev rest, Done (acc ++ done)).
Proof.
  induction rest as [|[dom id] rest IH]; intros pre done acc tr Hin Hok.
  - apply Forall2_nil_inv_l in Hok as ->. cbn. rewrite !app_nil_r. reflexivity.
  - apply Forall2_cons_inv_l in Hok as ([m id'] & done' & [Hrun Hid] & Hok & ->).
    cbn in Hrun, Hid. subst id'.
    cbn [length DoExecute_loop]. unfold mbnd at 1, get_domain.
    rewrite Hin, GetDomain_middle.
    unfold mbnd at 1, Run. unfold GetFieldSelection in *. rewrite Hrun.
    cbn [of_sum].
    replace (Z.of_nat (length pre) + 1) with (Z.of_nat (length (pre ++ [(dom, id)])))
      by (rewrite length_app; cbn; lia).
    rewrite (IH (pre ++ [(dom, id)]) done');
      [| rewrite Hin, <- app_assoc; reflexivity | exact Hok].
    unfold AddDomain. cbn [map]. rewrite <- !app_assoc. reflexivity.
Qed.

(** The loop when the primitive throws on the domain that follows the
    domains [good]. *)
Lemma DoExecute_loop_thrown (good : DataSet Mesh) :
  forall (pre done acc post : DataSet Mesh) (x : Mesh * Z) (e : Exn)
         (tr : list (event Mesh FieldSelection)),
    m_input c = pre ++ good ++ x :: post ->
    Forall2 ok good done ->
    throws x e ->
    loop (length (good ++ x :: post)) (Z.of_nat (length pre)) acc tr =
      (tr ++ map ev good ++ [ev x], Thrown e).
Proof.
  induction good as [|[dom id] good IH];
    intros pre done acc post x e tr Hin Hok Hthrow.
  - destruct x as [dom id]. unfold clip_throws in Hthrow. cbn in Hthrow.
    cbn [app length DoExecute_loop]. unfold mbnd at 1, get_domain.
    cbn [app] in Hin. rewrite Hin, GetDomain_middle.
    unfold mbnd at 1, Run. unfold GetFieldSelection in *. rewrite Hthrow.
    reflexivity.
  - apply Forall2_cons_inv_l in Hok as ([m id'] & done' & [Hrun Hid] & Hok & ->).
    cbn in Hrun, Hid. subst id'.
    cbn [app length DoExecute_loop]. unfold mbnd at 1, get_domain.
    cbn [app] in Hin. rewrite Hin, GetDomain_middle.
    unfold mbnd at 1, Run. unfold GetFieldSelection in *. rewrite Hrun.
    cbn [of_sum].
    replace (Z.of_nat (length pre) + 1) with (Z.of_nat (length (pre ++ [(dom, id)])))
      by (rewrite length_app; cbn; lia).
    rewrite (IH (pre ++ [(dom, id)]) done' _ post x e);
      [| rewrite Hin, <- app_assoc; reflexivity | exact Hok | exact Hthrow].
    cbn [map]. rewrite <- !app_assoc. reflexivity.
Qed.

(** The first domain on which the primitive throws, if there is one. *)
Lemma first_throw (l : DataSet Mesh) :
  (exists x e, x ∈ l /\ throws x e) ->
  exists good done x e post,
    l = good ++ x :: post /\ Forall2 ok good done /\ throws x e.
Proof.
  induction l as [|[dom id] l IH]; intros (x & e & Hx & He).
  - apply elem_of_nil in Hx. contradiction.
  - destruct (vtkmClip_Run dom (m_func c) (m_invert c) (GetFieldSelection c))
      as [e'|m] eqn:E.
    + exists [], [], (dom, id), e', l. split; [reflexivity|].
      split; [constructor|exact E].
    + apply elem_of_cons in Hx as [->|Hx].
      { unfold clip_throws in He. cbn in He. congruence. }
      destruct IH as (good & done & y & e'' & post & -> & Hok & Hth); [eauto|].
      exists ((dom, id) :: good), ((m, id) :: done), y, e'', post.
      split; [reflexivity|]. split; [|exact Hth].
      constructor; [split; [exact E|reflexivity]|exact Hok].
Qed.

(** C3. When the clip primitive returns a mesh for every domain of the input
    and the cleanup returns, [DoExecute] has called the primitive once per
    domain, in the order of the indices 0 .. NumberOfDomains-1, each time
    with the mesh of the domain, the configured function, the invert flag
    and the field selection; the collection given to the cleanup holds the
    meshes returned, in the same order, each under the domain id the input
    gives for its domain; the cleanup is called once, after the clips, and
    what it returns is the output [m_output] of the filter after the call,
    whose other members are as before. *)
Theorem DoExecute_clips_every_domain (assembled out : DataSet Mesh) :
  Forall2 ok (m_input c) assembled ->
  CleanGrid_Update assembled = inr out ->
  DoExecute vtkmClip_Run CleanGrid_Update c =
    (mkClip (m_func c) (m_invert c) (m_input c) (Some out) (m_field_selection c),
     map ev (m_input c) ++ [EvClean assembled], Completed) /\
  m_output (DoExecute vtkmClip_Run CleanGrid_Update c).1.1 = Some out.
Proof.
  intros Hok Hclean.
  assert (E : DoExecute vtkmClip_Run CleanGrid_Update c =
                (mkClip (m_func c) (m_invert c) (m_input c) (Some out)
                        (m_field_selection c),
                 map ev (m_input c) ++ [EvClean assembled], Completed)).
  { unfold DoExecute, DoExecute_body, GetNumberOfDomains.
    unfold mbnd at 1. rewrite Nat2Z.id.
    pose proof (DoExecute_loop_done (m_input c) [] assembled [] []
                  eq_refl Hok) as Hloop.
    change (Z.of_nat (length [])) with 0 in Hloop. rewrite Hloop.
    cbn [app]. unfold mbnd at 1, Clean. rewrite Hclean. reflexivity. }
  split; [exact E|]. rewrite E. reflexivity.
Qed.

(** C6. When the clip primitive throws on some domain of the input,
    [DoExecute] ends with the exception of the first such domain; the
    primitive has been called once on each domain before it and once on it,
    and on no other; the cleanup has not been called; and the filter is as
    it was before the call, so that its output is not replaced. *)
Theorem DoExecute_aborts_on_clip_failure :
  (exists x e, x ∈ m_input c /\ throws x e) ->
  exists good done x e post,
    m_input c = good ++ x :: post /\
    Forall2 ok good done /\
    throws x e /\
    DoExecute vtkmClip_Run CleanGrid_Update c =
      (c, map ev (good ++ [x]), Propagated e) /\
    (forall data_set, EvClean data_set ∉ map ev (good ++ [x])).
Proof.
  intros Hex.
  destruct (first_throw _ Hex) as (good & done & x & e & post & Hin & Hok & Hth).
  exists good, done, x, e, post.
  split; [exact Hin|]. split; [exact Hok|]. split; [exact Hth|]. split.
  - unfold DoExecute, DoExecute_body, GetNumberOfDomains.
    unfold mbnd at 1. rewrite Nat2Z.id.
    pose proof (DoExecute_loop_thrown good [] done [] post x e [] Hin Hok Hth)
      as Hloop.
    change (Z.of_nat (length [])) with 0 in Hloop.
    rewrite Hin at 1. rewrite Hloop.
    cbn [app]. rewrite map_app. reflexivity.
  - intros data_set Hev. apply list_elem_of_fmap in Hev as (y & Hy & _).
    discriminate Hy.
Qed.

End Execute.

Example DoExecute_good_input :
  DoExecute halve keep good_input =
    (set_output good_input [(5, 7); (10, 3)],
     [EvClip 10 None false tt; EvClip 20 None false tt;
      EvClean [(5, 7); (10, 3)]],
     Completed).
Proof. vm_compute. reflexivity. Qed.

Example DoExecute_bad_input :
  DoExecute halve keep bad_input =
    (bad_input, [EvClip 10 None false tt; EvClip (-1) None false tt],
     Propagated (-1)).
Proof. vm_compute. reflexivity. Qed.

Lemma DoExecute_clips_every_domain_witness :
  DoExecute halve keep good_input =
    (mkClip None false [(10, 7); (20, 3)] (Some [(5, 7); (10, 3)]) tt,
     map (clip_event good_input) (m_input good_input)
       ++ [EvClean [(5, 7); (10, 3)]],
     Completed) /\
  m_output (DoExecute halve keep good_input).1.1 = Some [(5, 7); (10, 3)].
Proof.
  apply (DoExecute_clips_every_domain halve keep good_input
           [(5, 7); (10, 3)] [(5, 7); (10, 3)]).
  - repeat constructor.
  - reflexivity.
Defined.

Lemma DoExecute_aborts_on_clip_failure_witness :
  exists good done x e post,
    m_input bad_input = good ++ x :: post /\
    Forall2 (clipped halve bad_input) good done /\
    clip_throws halve bad_input x e /\
    DoExecute halve keep bad_input =
      (bad_input, map (clip_event bad_input) (good ++ [x]), Propagated e) /\
    (forall data_set, EvClean data_set ∉ map (clip_event bad_input) (good ++ [x])).
Proof.
  apply (DoExecute_aborts_on_clip_failure halve keep bad_input).
  exists (-1, 3), (-1). split; [|reflexivity].
  apply list_elem_of_In. cbn. auto.
Defined.

(* ================================================================== *)
(** * Further properties of the code *)

(** ** Evaluation of the multi-plane function *)

Lemma to_nat_nonpos (n : Z) : n <= 0 -> Z.to_nat n = 0%nat.
Proof. intros Hn. destruct n; cbn; auto; lia. Qed.

(** The loops read the arrays only. *)
Lemma Value_loop_arrays (a b : MultiPlane.t) (point : Vec3) (todo : nat) :
  MultiPlane.Points a = MultiPlane.Points b ->
  MultiPlane.Normals a = MultiPlane.Normals b ->
  forall index acc,
    MultiPlane.Value_loop a point todo index acc =
    MultiPlane.Value_loop b point todo index acc.
Proof.
  intros Hp Hn. induction todo as [|todo IH]; intros index acc; [reflexivity|].
  cbn [MultiPlane.Value_loop]. unfold MultiPlane.plane_val. rewrite Hp, Hn.
  destruct (rd (MultiPlane.Points b) index) as [p| |]; cbn; auto.
  destruct (rd (MultiPlane.Normals b) index) as [n| |]; cbn; auto.
Qed.

(** [a + b] iterations are [a] iterations followed by [b] iterations. *)
Lemma Value_loop_app (mp : MultiPlane.t) (point : Vec3) (a b : nat) :
  forall index acc,
    MultiPlane.Value_loop mp point (a + b) index acc =
    MultiPlane.Value_loop mp point a index acc
    ≫= MultiPlane.Value_loop mp point b (index + Z.of_nat a).
Proof.
  induction a as [|a IH]; intros index acc.
  - cbn [Nat.add MultiPlane.Value_loop mbind outcome_bind obind].
    replace (index + Z.of_nat 0) with index by lia. reflexivity.
  - cbn [Nat.add MultiPlane.Value_loop].
    destruct (MultiPlane.plane_val mp point index) as [val| |]; cbn; auto.
    rewrite IH. replace (index + 1 + Z.of_nat a) with (index + Z.of_nat (S a)) by lia.
    reflexivity.
Qed.

(** X1. [Value] never returns NaN: on an object with its six slots and a
    count within them it returns a number, whatever the planes and the
    point hold (NaN included). *)
Theorem Value_never_nan (mp : MultiPlane.t) (point : Vec3) :
  MultiPlane.wf mp ->
  MultiPlane.m_num_planes mp <= MultiPlane.capacity ->
  exists v, MultiPlane.Value mp point = Returns v /\ F32.is_nan v = false.
Proof.
  intros Hwf Hcap.
  destruct (Value_loop_spec mp point Hwf
              (Z.to_nat (MultiPlane.m_num_planes mp)) 0 NegativeInfinity)
    as (v & Hv & Hnan & _);
    [lia | unfold MultiPlane.capacity in *; lia | reflexivity |].
  exists v. split; assumption.
Qed.

Lemma Value_never_nan_witness :
  exists v, MultiPlane.Value nan_planes (vZ 3 5 0) = Returns v /\
            F32.is_nan v = false.
Proof.
  apply (Value_never_nan nan_planes (vZ 3 5 0)).
  - split; reflexivity.
  - vm_compute; discriminate.
Defined.

(** The two loops, run side by side. *)
Lemma loops_agree (mp : MultiPlane.t) (point : Vec3) (todo : nat) :
  MultiPlane.wf mp ->
  forall (index : Z) (maxVal : spec_float) (maxValIdx : Z),
    0 <= index -> index + Z.of_nat todo <= MultiPlane.capacity ->
    Gradient_inv mp point index maxVal maxValIdx ->
    exists k v,
      MultiPlane.Gradient_loop mp point todo index maxVal maxValIdx = Returns k /\
      MultiPlane.Value_loop mp point todo index maxVal = Returns v /\
      Gradient_inv mp point (index + Z.of_nat todo) v k.
Proof.
  intros Hwf.
  induction todo as [|todo IH]; intros index maxVal maxValIdx Hidx Hcap Hinv.
  - exists maxValIdx, maxVal.
    split; [reflexivity|]. split; [reflexivity|].
    replace (index + Z.of_nat 0) with index by lia. exact Hinv.
  - cbn [MultiPlane.Gradient_loop MultiPlane.Value_loop].
    rewrite plane_val_d by (auto; unfold MultiPlane.capacity in *; lia).
    cbn [mbind outcome_bind obind].
    pose proof (Gradient_inv_step mp point index maxVal maxValIdx Hidx Hinv)
      as Hstep.
    replace (index + Z.of_nat (S todo)) with (index + 1 + Z.of_nat todo) by lia.
    unfold Max.
    destruct (F32.ltb maxVal (d mp point index)); apply IH; auto; lia.
Qed.

(** X2. [Value] and [Gradient] agree: on an object with its six slots and a
    count within them, the normal [Gradient] returns is the one of the slot
    [k] it selected, and the number [Value] returns is the value [d_k] of
    that plane; the only other case is that no plane was selected, where
    [Value] returns minus infinity and [Gradient] the normal of slot 0. *)
Theorem Value_Gradient_agree (mp : MultiPlane.t) (point : Vec3) :
  MultiPlane.wf mp ->
  MultiPlane.m_num_planes mp <= MultiPlane.capacity ->
  exists v k,
    MultiPlane.Value mp point = Returns v /\
    MultiPlane.Gradient_index mp point = Returns k /\
    MultiPlane.Gradient mp point =
      Returns (nth (Z.to_nat k) (MultiPlane.Normals mp) vzero) /\
    ((0 <= k < MultiPlane.m_num_planes mp /\ v = d mp point k) \/
     (v = NegativeInfinity /\ k = 0)).
Proof.
  intros Hwf Hcap. unfold MultiPlane.capacity in Hcap.
  destruct (loops_agree mp point (Z.to_nat (MultiPlane.m_num_planes mp)) Hwf
              0 NegativeInfinity 0)
    as (k & v & Hk & Hv & Hinv);
    [lia | unfold MultiPlane.capacity; lia | apply Gradient_inv_init |].
  exists v, k. split; [exact Hv|]. split; [exact Hk|].
  destruct Hinv as (_ & _ & Hsel).
  assert (Hrange : 0 <= k < 6).
  { destruct Hsel as [[_ ->]|(Hr & _)]; lia. }
  split.
  - unfold MultiPlane.Gradient, MultiPlane.Gradient_index. rewrite Hk.
    cbn [mbind outcome_bind obind].
    apply rd_nth. destruct Hwf as [_ Hlen]. rewrite Hlen. lia.
  - destruct Hsel as [Hnone|(Hr & Hm & _)]; [right; exact Hnone|].
    left. split; [lia|exact Hm].
Qed.

Lemma Value_Gradient_agree_witness :
  exists v k,
    MultiPlane.Value two_planes (vZ 3 5 0) = Returns v /\
    MultiPlane.Gradient_index two_planes (vZ 3 5 0) = Returns k /\
    MultiPlane.Gradient two_planes (vZ 3 5 0) =
      Returns (nth (Z.to_nat k) (MultiPlane.Normals two_planes) vzero) /\
    ((0 <= k < MultiPlane.m_num_planes two_planes /\
      v = d two_planes (vZ 3 5 0) k) \/
     (v = NegativeInfinity /\ k = 0)).
Proof.
  apply (Value_Gradient_agree two_planes (vZ 3 5 0)).
  - split; reflexivity.
  - vm_compute; discriminate.
Defined.

(** X3. Activating more planes never lowers [Value]: with the same arrays,
    the value for a count [n'] is not below the value for a count
    [n <= n']. *)
Theorem Value_monotone_in_count (mp : MultiPlane.t) (point : Vec3) (n n' : Z) :
  MultiPlane.wf mp ->
  n <= n' <= MultiPlane.capacity ->
  exists v v',
    MultiPlane.Value (MultiPlane.SetNumPlanes mp n) point = Returns v /\
    MultiPlane.Value (MultiPlane.SetNumPlanes mp n') point = Returns v' /\
    F32.ltb v' v = false.
Proof.
  intros Hwf [Hle Hcap]. unfold MultiPlane.capacity in Hcap.
  unfold MultiPlane.Value.
  change (MultiPlane.m_num_planes (MultiPlane.SetNumPlanes mp n)) with n.
  change (MultiPlane.m_num_planes (MultiPlane.SetNumPlanes mp n')) with n'.
  rewrite (Value_loop_arrays (MultiPlane.SetNumPlanes mp n) mp),
          (Value_loop_arrays (MultiPlane.SetNumPlanes mp n') mp) by reflexivity.
  replace (Z.to_nat n') with (Z.to_nat n + (Z.to_nat n' - Z.to_nat n))%nat by lia.
  rewrite Value_loop_app.
  destruct (Value_loop_spec mp point Hwf (Z.to_nat n) 0 NegativeInfinity)
    as (v & Hv & Hnan & _);
    [lia | unfold MultiPlane.capacity; lia | reflexivity |].
  rewrite Hv. cbn [mbind outcome_bind obind].
  destruct (Value_loop_spec mp point Hwf (Z.to_nat n' - Z.to_nat n)
              (0 + Z.of_nat (Z.to_nat n)) v)
    as (v' & Hv' & _ & Hge & _);
    [lia | unfold MultiPlane.capacity; lia | exact Hnan |].
  exists v, v'. auto.
Qed.

Lemma Value_monotone_in_count_witness :
  exists v v',
    MultiPlane.Value (MultiPlane.SetNumPlanes two_planes 1) (vZ 3 5 0) = Returns v /\
    MultiPlane.Value (MultiPlane.SetNumPlanes two_planes 2) (vZ 3 5 0) = Returns v' /\
    F32.ltb v' v = false.
Proof.
  apply (Value_monotone_in_count two_planes (vZ 3 5 0) 1 2).
  - split; reflexivity.
  - vm_compute. split; discriminate.
Defined.

(** X4. When every active slot holds the plane of slot 0 and its value [d_0]
    at the point is a number, [Value] is exactly [d_0], the signed distance
    [Dot(point - Points[0], Normals[0])] of the single plane. *)
Theorem Value_of_repeated_plane (mp : MultiPlane.t) (point : Vec3) :
  MultiPlane.wf mp ->
  1 <= MultiPlane.m_num_planes mp <= MultiPlane.capacity ->
  (forall i, 0 <= i < MultiPlane.m_num_planes mp ->
     nth (Z.to_nat i) (MultiPlane.Points mp) vzero =
       nth 0 (MultiPlane.Points mp) vzero /\
     nth (Z.to_nat i) (MultiPlane.Normals mp) vzero =
       nth 0 (MultiPlane.Normals mp) vzero) ->
  F32.is_nan (d mp point 0) = false ->
  MultiPlane.Value mp point = Returns (d mp point 0).
Proof.
  intros Hwf [Hn Hcap] Hsame Hnum. unfold MultiPlane.capacity in Hcap.
  assert (Hd : forall i, 0 <= i < MultiPlane.m_num_planes mp ->
                         d mp point i = d mp point 0).
  { intros i Hi. unfold d. destruct (Hsame i Hi) as [-> ->]. reflexivity. }
  unfold MultiPlane.Value.
  destruct (Value_loop_spec mp point Hwf
              (Z.to_nat (MultiPlane.m_num_planes mp)) 0 NegativeInfinity)
    as (v & Hv & _ & _ & Hub & Hatt);
    [lia | unfold MultiPlane.capacity; lia | reflexivity |].
  rewrite Hv. f_equal.
  destruct Hatt as [->|(i & Hi & ->)].
  - specialize (Hub 0 ltac:(lia)).
    destruct (FloatOrder.not_above_neg_inf _ Hub) as [H|H]; congruence.
  - apply Hd. lia.
Qed.

Lemma Value_of_repeated_plane_witness :
  MultiPlane.Value twice_plane (vZ 3 5 0) = Returns (d twice_plane (vZ 3 5 0) 0).
Proof.
  apply (Value_of_repeated_plane twice_plane (vZ 3 5 0)).
  - split; reflexivity.
  - vm_compute. split; discriminate.
  - intros i Hi. change (0 <= i < 2) in Hi.
    assert (Hc : i = 0 \/ i = 1) by lia.
    destruct Hc as [-> | ->]; split; reflexivity.
  - reflexivity.
Defined.

(** X5. With a count that is zero or negative no plane is visited: [Value]
    returns minus infinity and [Gradient] the stored normal of slot 0. *)
Theorem no_active_plane (mp : MultiPlane.t) (point : Vec3) :
  MultiPlane.wf mp ->
  MultiPlane.m_num_planes mp <= 0 ->
  MultiPlane.Value mp point = Returns NegativeInfinity /\
  MultiPlane.Gradient mp point =
    Returns (nth 0 (MultiPlane.Normals mp) vzero).
Proof.
  intros [_ Hlen] Hn.
  unfold MultiPlane.Value, MultiPlane.Gradient, MultiPlane.Gradient_index.
  rewrite (to_nat_nonpos _ Hn). cbn [MultiPlane.Value_loop MultiPlane.Gradient_loop
                                       mbind outcome_bind obind].
  split; [reflexivity|]. apply (rd_nth _ 0). rewrite Hlen. lia.
Qed.

Lemma no_active_plane_witness :
  MultiPlane.Value no_plane_b (vZ 3 5 0) = Returns NegativeInfinity /\
  MultiPlane.Gradient no_plane_b (vZ 3 5 0) =
    Returns (nth 0 (MultiPlane.Normals no_plane_b) vzero).
Proof.
  apply (no_active_plane no_plane_b (vZ 3 5 0)).
  - split; reflexivity.
  - vm_compute; discriminate.
Defined.

Lemma rd_beyond (a : list Vec3) (i : Z) :
  Z.of_nat (length a) <= i -> rd a i = Undefined.
Proof.
  intros Hi. unfold rd. destruct (Z.ltb_spec i 0); [reflexivity|].
  rewrite (proj2 (lookup_ge_None a (Z.to_nat i))) by lia. reflexivity.
Qed.

Lemma Value_loop_beyond (mp : MultiPlane.t) (point : Vec3) (todo : nat) :
  MultiPlane.wf mp ->
  forall index acc,
    0 <= index <= MultiPlane.capacity ->
    MultiPlane.capacity < index + Z.of_nat todo ->
    MultiPlane.Value_loop mp point todo index acc = Undefined.
Proof.
  intros Hwf. unfold MultiPlane.capacity.
  induction todo as [|todo IH]; intros index acc Hidx Hbeyond; [lia|].
  cbn [MultiPlane.Value_loop].
  destruct (Z.eq_dec index 6) as [->|Hne].
  - unfold MultiPlane.plane_val. destruct Hwf as [Hp _].
    rewrite (rd_beyond (MultiPlane.Points mp) 6) by (rewrite Hp; lia).
    reflexivity.
  - rewrite plane_val_d by (auto; unfold MultiPlane.capacity; lia).
    cbn [mbind outcome_bind obind]. apply IH; lia.
Qed.

Lemma Gradient_loop_beyond (mp : MultiPlane.t) (point : Vec3) (todo : nat) :
  MultiPlane.wf mp ->
  forall index maxVal maxValIdx,
    0 <= index <= MultiPlane.capacity ->
    MultiPlane.capacity < index + Z.of_nat todo ->
    MultiPlane.Gradient_loop mp point todo index maxVal maxValIdx = Undefined.
Proof.
  intros Hwf. unfold MultiPlane.capacity.
  induction todo as [|todo IH]; intros index maxVal maxValIdx Hidx Hbeyond; [lia|].
  cbn [MultiPlane.Gradient_loop].
  destruct (Z.eq_dec index 6) as [->|Hne].
  - unfold MultiPlane.plane_val. destruct Hwf as [Hp _].
    rewrite (rd_beyond (MultiPlane.Points mp) 6) by (rewrite Hp; lia).
    reflexivity.
  - rewrite plane_val_d by (auto; unfold MultiPlane.capacity; lia).
    cbn [mbind outcome_bind obind].
    destruct (F32.ltb maxVal (d mp point index)); apply IH; lia.
Qed.

(** X6. The count is not limited to the six declared slots: with a count
    above six both [Value] and [Gradient] read [Points[6]], outside the
    array, at every point. *)
Theorem count_beyond_capacity (mp : MultiPlane.t) (point : Vec3) :
  MultiPlane.wf mp ->
  MultiPlane.capacity < MultiPlane.m_num_planes mp ->
  MultiPlane.Value mp point = Undefined /\
  MultiPlane.Gradient mp point = Undefined.
Proof.
  intros Hwf Hn. unfold MultiPlane.capacity in Hn.
  unfold MultiPlane.Value, MultiPlane.Gradient, MultiPlane.Gradient_index.
  rewrite Value_loop_beyond, Gradient_loop_beyond;
    auto; unfold MultiPlane.capacity; lia.
Qed.

Lemma count_beyond_capacity_witness :
  MultiPlane.Value seven_planes (vZ 3 5 0) = Undefined /\
  MultiPlane.Gradient seven_planes (vZ 3 5 0) = Undefined.
Proof.
  apply (count_beyond_capacity seven_planes (vZ 3 5 0)).
  - split; reflexivity.
  - vm_compute; reflexivity.
Defined.

(* ------------------------------------------------------------------ *)
(** ** Setters and getters of the multi-plane function *)






(** X10. Two calls of [SetPlane] on different slots give the same object in
    either order; two calls on the same slot leave the points and normals of
    the second call alone. *)
Theorem SetPlane_twice (assertions : bool) (mp : MultiPlane.t) (i j : Z)
    (p n q m : Vec3) :
  MultiPlane.wf mp -> 0 <= i < 3 -> 0 <= j < 3 ->
  (i <> j ->
   MultiPlane.SetPlane assertions mp i p n
     ≫= (fun mp' => MultiPlane.SetPlane assertions mp' j q m) =
   MultiPlane.SetPlane assertions mp j q m
     ≫= (fun mp' => MultiPlane.SetPlane assertions mp' i p n)) /\
  (exists mp1 mp2,
     MultiPlane.SetPlane assertions mp i p n
       ≫= (fun mp' => MultiPlane.SetPlane assertions mp' i q m)
       = Returns mp2 /\
     MultiPlane.SetPlane assertions mp i q m = Returns mp1 /\
     MultiPlane.Points mp2 = MultiPlane.Points mp1 /\
     MultiPlane.Normals mp2 = MultiPlane.Normals mp1 /\
     MultiPlane.m_num_planes mp2 = MultiPlane.m_num_planes mp1).
Proof.
  intros Hwf Hi Hj.
  assert (Hwf' : forall k x y, MultiPlane.wf
            (MultiPlane.mk (<[k := x]> (MultiPlane.Points mp))
                           (<[k := y]> (MultiPlane.Normals mp))
                           (MultiPlane.m_num_planes mp)
                           (MultiPlane.ModifiedCount mp + 1))).
  { intros k x y. destruct Hwf as [Hp Hn].
    split; cbn; rewrite length_insert; assumption. }
  split.
  - intros Hne.
    rewrite (SetPlane_returns assertions mp i p n Hwf Hi),
            (SetPlane_returns assertions mp j q m Hwf Hj).
    cbn [mbind outcome_bind obind].
    rewrite !SetPlane_returns by auto.
    cbn [MultiPlane.Points MultiPlane.Normals MultiPlane.m_num_planes
         MultiPlane.ModifiedCount].
    rewrite (list_insert_insert_ne (MultiPlane.Points mp) (Z.to_nat i) (Z.to_nat j))
      by lia.
    rewrite (list_insert_insert_ne (MultiPlane.Normals mp) (Z.to_nat i) (Z.to_nat j))
      by lia.
    reflexivity.
  - do 2 eexists.
    rewrite (SetPlane_returns assertions mp i p n Hwf Hi).
    cbn [mbind outcome_bind obind].
    rewrite !SetPlane_returns by auto.
    split; [reflexivity|]. split; [reflexivity|].
    cbn [MultiPlane.Points MultiPlane.Normals MultiPlane.m_num_planes].
    rewrite !list_insert_insert_eq. auto.
Qed.

Lemma SetPlane_twice_witness :
  MultiPlane.SetPlane true two_planes 0 (vZ 5 0 0) (vZ 0 0 1)
    ≫= (fun mp' => MultiPlane.SetPlane true mp' 2 (vZ 0 0 7) (vZ 1 0 0)) =
  MultiPlane.SetPlane true two_planes 2 (vZ 0 0 7) (vZ 1 0 0)
    ≫= (fun mp' => MultiPlane.SetPlane true mp' 0 (vZ 5 0 0) (vZ 0 0 1)).
Proof.
  apply (SetPlane_twice true two_planes 0 2 (vZ 5 0 0) (vZ 0 0 1) (vZ 0 0 7) (vZ 1 0 0)).
  - split; reflexivity.
  - lia.
  - lia.
  - lia.
Defined.

(* ------------------------------------------------------------------ *)
(** ** Sequences of calls *)

Lemma wr_drop3 (a r : list Vec3) (i : Z) (v : Vec3) :
  0 <= i < 3 -> wr a i v = Returns r -> drop 3 r = drop 3 a.
Proof.
  intros Hi. unfold wr. destruct (i <? 0); [discriminate|].
  destruct (a !! Z.to_nat i); [|discriminate].
  intros H. injection H as <-. apply drop_insert_lt. lia.
Qed.

Lemma copy_slots_drop3 (idxs : list Z) :
  Forall (fun i => 0 <= i < 3) idxs ->
  forall (src dst r : list Vec3),
    MultiPlane.copy_slots idxs src dst = Returns r -> drop 3 r = drop 3 dst.
Proof.
  induction 1 as [|i idxs Hi _ IH]; intros src dst r H;
    cbn [MultiPlane.copy_slots] in H.
  - injection H as <-. reflexivity.
  - destruct (rd src i) as [v| |];
      cbn [mbind outcome_bind obind] in H; try discriminate.
    destruct (wr dst i v) as [dst'| |] eqn:E;
      cbn [mbind outcome_bind obind] in H; try discriminate.
    rewrite (IH _ _ _ H). exact (wr_drop3 _ _ _ _ Hi E).
Qed.

Lemma slots_012 : Forall (fun i => 0 <= i < 3) [0; 1; 2].
Proof. repeat constructor; lia. Qed.

(** No call writes a slot above 2, except [SetPlane] on such a slot in a
    build without assertions. *)
Lemma exec_drop3 (assertions : bool) (c : MultiPlane.call)
    (mp mp' : MultiPlane.t) :
  assertions = true \/ low_slot c ->
  MultiPlane.exec assertions c mp = Returns mp' ->
  drop 3 (MultiPlane.Points mp') = drop 3 (MultiPlane.Points mp) /\
  drop 3 (MultiPlane.Normals mp') = drop 3 (MultiPlane.Normals mp).
Proof.
  intros Hlow H. destruct c; cbn [MultiPlane.exec] in H.
  - unfold MultiPlane.SetPlanes in H.
    destruct (MultiPlane.copy_slots _ points _) as [ps| |] eqn:E1;
      cbn [mbind outcome_bind obind] in H; try discriminate.
    destruct (MultiPlane.copy_slots _ normals _) as [ns| |] eqn:E2;
      cbn [mbind outcome_bind obind] in H; try discriminate.
    injection H as <-. cbn.
    split; eapply copy_slots_drop3; eauto using slots_012.
  - assert (Hidx : 0 <= idx < 3).
    { destruct Hlow as [-> | Hlow]; [|exact Hlow].
      unfold MultiPlane.SetPlane, MultiPlane.VTKM_ASSERT in H.
      destruct (Z.leb_spec 0 idx); destruct (Z.ltb_spec idx 3);
        cbn [andb negb mbind outcome_bind obind] in H;
        try discriminate; lia. }
    unfold MultiPlane.SetPlane, MultiPlane.VTKM_ASSERT in H.
    destruct (assertions && negb _);
      cbn [mbind outcome_bind obind] in H; [discriminate|].
    destruct (wr _ idx point) as [ps| |] eqn:E1;
      cbn [mbind outcome_bind obind] in H; try discriminate.
    destruct (wr _ idx normal) as [ns| |] eqn:E2;
      cbn [mbind outcome_bind obind] in H; try discriminate.
    injection H as <-. cbn.
    split; eapply wr_drop3; eauto; lia.
  - injection H as <-. split; reflexivity.
  - destruct (MultiPlane.GetPlanes mp);
      cbn [mbind outcome_bind obind] in H; try discriminate.
    injection H as <-. split; reflexivity.
  - injection H as <-. split; reflexivity.
  - injection H as <-. split; reflexivity.
  - destruct (MultiPlane.Value mp point);
      cbn [mbind outcome_bind obind] in H; try discriminate.
    injection H as <-. split; reflexivity.
  - destruct (MultiPlane.Gradient mp point);
      cbn [mbind outcome_bind obind] in H; try discriminate.
    injection H as <-. split; reflexivity.
Qed.

(** X9. The slots 3, 4 and 5 hold zero vectors in a default-constructed
    object and in an object made by the constructor. They still do after
    any sequence of calls of member functions that return, in a build with
    assertions, and in a build without assertions as long as the sequence
    has no [SetPlane] on a slot above 2: in such a build [SetPlane] on a
    slot 3..5 returns and writes that slot. *)
Theorem upper_slots_stay_zero :
  upper_slots_zero MultiPlane.default /\
  (forall points normals num_planes mp,
     MultiPlane.make points normals num_planes = Returns mp ->
     upper_slots_zero mp) /\
  (forall assertions calls mp mp',
     assertions = true \/ Forall low_slot calls ->
     upper_slots_zero mp -> run assertions calls mp = Returns mp' ->
     upper_slots_zero mp') /\
  (forall mp idx point normal,
     MultiPlane.wf mp -> 3 <= idx < 6 ->
     exists mp',
       MultiPlane.SetPlane false mp idx point normal = Returns mp' /\
       MultiPlane.Points mp' !! Z.to_nat idx = Some point /\
       MultiPlane.Normals mp' !! Z.to_nat idx = Some normal).
Proof.
  split; [split; reflexivity|]. split; [|split].
  - intros points normals num_planes mp H. unfold MultiPlane.make in H.
    destruct (MultiPlane.SetPlanes MultiPlane.default points normals)
      as [mp0| |] eqn:E; cbn [mbind outcome_bind obind] in H; try discriminate.
    injection H as <-.
    destruct (exec_drop3 true (MultiPlane.CallSetPlanes points normals)
                MultiPlane.default mp0 (or_introl eq_refl) E) as [Hp Hn].
    split; cbn; [rewrite Hp|rewrite Hn]; reflexivity.
  - intros assertions.
    induction calls as [|c calls IH]; intros mp mp' Hlow Hz H; cbn [run] in H.
    + injection H as <-. exact Hz.
    + destruct (MultiPlane.exec assertions c mp) as [mp1| |] eqn:E;
        cbn [mbind outcome_bind obind] in H; try discriminate.
      assert (Hc : assertions = true \/ low_slot c).
      { destruct Hlow as [Ha|Hl]; [left; exact Ha|right].
        apply Forall_cons in Hl as [Hl _]. exact Hl. }
      assert (Hrest : assertions = true \/ Forall low_slot calls).
      { destruct Hlow as [Ha|Hl]; [left; exact Ha|right].
        apply Forall_cons in Hl as [_ Hl]. exact Hl. }
      apply (IH mp1 mp' Hrest); [|exact H].
      destruct (exec_drop3 assertions c mp mp1 Hc E) as [Hp Hn].
      destruct Hz as [Hzp Hzn]. split; congruence.
  - intros mp idx point normal Hwf Hidx. eexists.
    split; [apply SetPlane_unchecked; [exact Hwf|unfold MultiPlane.capacity; lia]|].
    destruct Hwf as [Hp Hn]. cbn [MultiPlane.Points MultiPlane.Normals].
    split; apply list_lookup_insert_eq; lia.
Qed.

Lemma upper_slots_stay_zero_witness :
  upper_slots_zero
    (MultiPlane.SetNumPlanes
       (MultiPlane.mk (<[2%nat := vZ 9 9 9]> (MultiPlane.Points MultiPlane.default))
                      (<[2%nat := vZ 0 0 1]> (MultiPlane.Normals MultiPlane.default))
                      3 1) 5) /\
  exists mp',
    MultiPlane.SetPlane false MultiPlane.default 3 (vZ 9 9 9) (vZ 0 0 1)
      = Returns mp' /\
    MultiPlane.Points mp' !! Z.to_nat 3 = Some (vZ 9 9 9) /\
    MultiPlane.Normals mp' !! Z.to_nat 3 = Some (vZ 0 0 1).
Proof.
  split.
  - apply (proj1 (proj2 (proj2 upper_slots_stay_zero)) false
             [MultiPlane.CallSetPlane 2 (vZ 9 9 9) (vZ 0 0 1);
              MultiPlane.CallValue (vZ 1 2 3);
              MultiPlane.CallSetNumPlanes 5]
             MultiPlane.default).
    + right. repeat constructor; cbn; lia.
    + split; reflexivity.
    + vm_compute. reflexivity.
  - apply (proj2 (proj2 (proj2 upper_slots_stay_zero)) MultiPlane.default 3).
    + split; reflexivity.
    + lia.
Defined.

Lemma exec_ModifiedCount (assertions : bool) (c : MultiPlane.call)
    (mp mp' : MultiPlane.t) :
  MultiPlane.exec assertions c mp = Returns mp' ->
  MultiPlane.ModifiedCount mp' =
    MultiPlane.ModifiedCount mp + (if MultiPlane.is_setter c then 1 else 0).
Proof.
  intros H. destruct c; cbn [MultiPlane.exec] in H; cbn [MultiPlane.is_setter].
  - unfold MultiPlane.SetPlanes in H.
    destruct (MultiPlane.copy_slots _ points _);
      cbn [mbind outcome_bind obind] in H; try discriminate.
    destruct (MultiPlane.copy_slots _ normals _);
      cbn [mbind outcome_bind obind] in H; try discriminate.
    injection H as <-. reflexivity.
  - unfold MultiPlane.SetPlane, MultiPlane.VTKM_ASSERT in H.
    destruct (assertions && negb _);
      cbn [mbind outcome_bind obind] in H; [discriminate|].
    destruct (wr _ idx point);
      cbn [mbind outcome_bind obind] in H; try discriminate.
    destruct (wr _ idx normal);
      cbn [mbind outcome_bind obind] in H; try discriminate.
    injection H as <-. reflexivity.
  - injection H as <-. reflexivity.
  - destruct (MultiPlane.GetPlanes mp);
      cbn [mbind outcome_bind obind] in H; try discriminate.
    injection H as <-. lia.
  - injection H as <-. lia.
  - injection H as <-. lia.
  - destruct (MultiPlane.Value mp point);
      cbn [mbind outcome_bind obind] in H; try discriminate.
    injection H as <-. lia.
  - destruct (MultiPlane.Gradient mp point);
      cbn [mbind outcome_bind obind] in H; try discriminate.
    injection H as <-. lia.
Qed.

(** X11. Over a sequence of calls that all return, the modification count
    grows by exactly the number of calls of [SetPlanes], [SetPlane] and
    [SetNumPlanes] in the sequence: it never decreases, and two objects
    with the same count have seen the same number of setter calls. *)
Theorem ModifiedCount_counts_setters (assertions : bool)
    (calls : list MultiPlane.call) :
  forall mp mp',
    run assertions calls mp = Returns mp' ->
    MultiPlane.ModifiedCount mp' = MultiPlane.ModifiedCount mp + setter_count calls /\
    MultiPlane.ModifiedCount mp <= MultiPlane.ModifiedCount mp'.
Proof.
  assert (Hnonneg : forall l, 0 <= setter_count l).
  { induction l as [|c l IH]; cbn [setter_count]; [lia|].
    destruct (MultiPlane.is_setter c); lia. }
  induction calls as [|c calls IH]; intros mp mp' H; cbn [run] in H.
  - injection H as <-. cbn [setter_count]. lia.
  - destruct (MultiPlane.exec assertions c mp) as [mp1| |] eqn:E;
      cbn [mbind outcome_bind obind] in H; try discriminate.
    apply exec_ModifiedCount in E. apply IH in H as [H _].
    cbn [setter_count]. specialize (Hnonneg calls).
    destruct (MultiPlane.is_setter c); lia.
Qed.

Lemma ModifiedCount_counts_setters_witness :
  exists mp',
    run true [MultiPlane.CallSetPlane 2 (vZ 9 9 9) (vZ 0 0 1);
              MultiPlane.CallValue (vZ 1 2 3);
              MultiPlane.CallSetNumPlanes 3] two_planes = Returns mp' /\
    MultiPlane.ModifiedCount mp' = 3.
Proof.
  eexists. split; [vm_compute; reflexivity|].
  apply (ModifiedCount_counts_setters true
           [MultiPlane.CallSetPlane 2 (vZ 9 9 9) (vZ 0 0 1);
            MultiPlane.CallValue (vZ 1 2 3);
            MultiPlane.CallSetNumPlanes 3] two_planes).
  vm_compute. reflexivity.
Defined.

(* ------------------------------------------------------------------ *)
(** ** Configuring the filter and evaluating what was configured *)

Lemma Gradient_selects (mp : MultiPlane.t) (point : Vec3) :
  MultiPlane.wf mp ->
  1 <= MultiPlane.m_num_planes mp <= MultiPlane.capacity ->
  exists k,
    0 <= k < MultiPlane.m_num_planes mp /\
    MultiPlane.Gradient mp point =
      Returns (nth (Z.to_nat k) (MultiPlane.Normals mp) vzero).
Proof.
  intros Hwf [Hn Hcap]. unfold MultiPlane.capacity in Hcap.
  destruct (Gradient_loop_spec mp point Hwf
              (Z.to_nat (MultiPlane.m_num_planes mp)) 0 NegativeInfinity 0)
    as (k & m & Hk & Hinv);
    [lia | unfold MultiPlane.capacity; lia | apply Gradient_inv_init |].
  replace (0 + Z.of_nat (Z.to_nat (MultiPlane.m_num_planes mp)))
    with (MultiPlane.m_num_planes mp) in Hinv by lia.
  destruct (Gradient_inv_final mp point _ m k Hn Hinv) as (Hrange & _).
  exists k. split; [exact Hrange|].
  unfold MultiPlane.Gradient, MultiPlane.Gradient_index. rewrite Hk.
  cbn [mbind outcome_bind obind].
  apply rd_nth. destruct Hwf as [_ Hlen]. rewrite Hlen. lia.
Qed.

Section Configured.

Context {Mesh FieldSelection : Type}.
Implicit Types c : Clip Mesh FieldSelection.

(** X12. The function configured by [Set2PlaneClip] can be evaluated at
    every point: [Value] returns a number (never NaN) and [Gradient] returns
    the normalized first or second normal, never the zero normal of the
    unused slot. For [Set3PlaneClip], [Gradient] returns one of the three
    normalized normals. This holds for all arguments, zero normals
    included. *)
Theorem configured_planes_evaluate c
    (o1 n1 o2 n2 o3 n3 : Double3) (point : Vec3) :
  (exists c' planes v g,
     Set2PlaneClip c o1 n1 o2 n2 = Returns c' /\
     m_func c' = Some (MultiPlaneFunction planes) /\
     MultiPlane.Value planes point = Returns v /\ F32.is_nan v = false /\
     MultiPlane.Gradient planes point = Returns g /\
     (g = Normalize (to_Vec3f n1) \/ g = Normalize (to_Vec3f n2))) /\
  (exists c' planes v g,
     Set3PlaneClip c o1 n1 o2 n2 o3 n3 = Returns c' /\
     m_func c' = Some (MultiPlaneFunction planes) /\
     MultiPlane.Value planes point = Returns v /\ F32.is_nan v = false /\
     MultiPlane.Gradient planes point = Returns g /\
     (g = Normalize (to_Vec3f n1) \/ g = Normalize (to_Vec3f n2) \/
      g = Normalize (to_Vec3f n3))).
Proof.
  split.
  - set (planes := planes_of [to_Vec3f o1; to_Vec3f o2; vzero]
                     [Normalize (to_Vec3f n1); Normalize (to_Vec3f n2); vzero] 2).
    assert (Hwf : MultiPlane.wf planes) by (split; reflexivity).
    destruct (Value_loop_spec planes point Hwf 2 0 NegativeInfinity)
      as (v & Hv & Hnan & _);
      [lia | unfold MultiPlane.capacity; lia | reflexivity |].
    destruct (Gradient_selects planes point Hwf) as (k & Hk & Hg).
    { unfold MultiPlane.capacity. cbn. lia. }
    change (MultiPlane.m_num_planes planes) with 2 in Hk.
    exists (set_func c (MultiPlaneFunction planes)), planes, v,
           (nth (Z.to_nat k) (MultiPlane.Normals planes) vzero).
    split; [reflexivity|]. split; [reflexivity|].
    split; [exact Hv|]. split; [exact Hnan|]. split; [exact Hg|].
    assert (Hc : k = 0 \/ k = 1) by lia.
    destruct Hc as [-> | ->]; [left|right]; reflexivity.
  - set (planes := planes_of [to_Vec3f o1; to_Vec3f o2; to_Vec3f o3]
                     [Normalize (to_Vec3f n1); Normalize (to_Vec3f n2);
                      Normalize (to_Vec3f n3)] 3).
    assert (Hwf : MultiPlane.wf planes) by (split; reflexivity).
    destruct (Value_loop_spec planes point Hwf 3 0 NegativeInfinity)
      as (v & Hv & Hnan & _);
      [lia | unfold MultiPlane.capacity; lia | reflexivity |].
    destruct (Gradient_selects planes point Hwf) as (k & Hk & Hg).
    { unfold MultiPlane.capacity. cbn. lia. }
    change (MultiPlane.m_num_planes planes) with 3 in Hk.
    exists (set_func c (MultiPlaneFunction planes)), planes, v,
           (nth (Z.to_nat k) (MultiPlane.Normals planes) vzero).
    split; [reflexivity|]. split; [reflexivity|].
    split; [exact Hv|]. split; [exact Hnan|]. split; [exact Hg|].
    assert (Hc : k = 0 \/ k = 1 \/ k = 2) by lia.
    destruct Hc as [-> | [-> | ->]]; [left|right; left|right; right]; reflexivity.
Qed.

(** X13. A third plane never lowers the value: at every point, [Value] of the
    function configured by [Set3PlaneClip] is not below [Value] of the
    function configured by [Set2PlaneClip] with the same first two planes. *)
Theorem third_plane_never_lowers_Value c
    (o1 n1 o2 n2 o3 n3 : Double3) (point : Vec3) :
  exists c2 c3 planes2 planes3 v2 v3,
    Set2PlaneClip c o1 n1 o2 n2 = Returns c2 /\
    m_func c2 = Some (MultiPlaneFunction planes2) /\
    Set3PlaneClip c o1 n1 o2 n2 o3 n3 = Returns c3 /\
    m_func c3 = Some (MultiPlaneFunction planes3) /\
    MultiPlane.Value planes2 point = Returns v2 /\
    MultiPlane.Value planes3 point = Returns v3 /\
    F32.ltb v3 v2 = false.
Proof.
  set (planes2 := planes_of [to_Vec3f o1; to_Vec3f o2; vzero]
                    [Normalize (to_Vec3f n1); Normalize (to_Vec3f n2); vzero] 2).
  set (planes3 := planes_of [to_Vec3f o1; to_Vec3f o2; to_Vec3f o3]
                    [Normalize (to_Vec3f n1); Normalize (to_Vec3f n2);
                     Normalize (to_Vec3f n3)] 3).
  assert (Hwf : MultiPlane.wf planes3) by (split; reflexivity).
  assert (Hsame : same_active_slots planes2 planes3 2).
  { intros i Hi. destruct i as [|[|i]]; [split; reflexivity..|lia]. }
  destruct (Value_loop_spec planes3 point Hwf 2 0 NegativeInfinity)
    as (v2 & Hv2 & Hnan & _);
    [lia | unfold MultiPlane.capacity; lia | reflexivity |].
  destruct (Value_loop_spec planes3 point Hwf 1 (0 + Z.of_nat 2) v2)
    as (v3 & Hv3 & _ & Hge & _);
    [lia | unfold MultiPlane.capacity; lia | exact Hnan |].
  exists (set_func c (MultiPlaneFunction planes2)),
         (set_func c (MultiPlaneFunction planes3)), planes2, planes3, v2, v3.
  split; [reflexivity|]. split; [reflexivity|].
  split; [reflexivity|]. split; [reflexivity|].
  split; [|split; [|exact Hge]].
  - unfold MultiPlane.Value. change (Z.to_nat (MultiPlane.m_num_planes planes2)) with 2%nat.
    rewrite (Value_loop_same planes2 planes3 point 2 Hsame 2) by lia.
    exact Hv2.
  - unfold MultiPlane.Value.
    change (Z.to_nat (MultiPlane.m_num_planes planes3)) with (2 + 1)%nat.
    rewrite Value_loop_app, Hv2. exact Hv3.
Qed.

(** X19. The order of configuration: the last call of a setter of the clip
    function wins, and leaves the same filter as if the earlier one had not
    been made; [SetInvertClip] can be made before or after it; of two calls
    of [SetInvertClip] the last wins. *)
Theorem configuration_order c (s t : surface) (a b : bool) :
  (configure c s ≫= (fun c' => configure c' t)) = configure c t /\
  configure (SetInvertClip c a) s =
    (configure c s ≫= (fun c' => Returns (SetInvertClip c' a))) /\
  SetInvertClip (SetInvertClip c a) b = SetInvertClip c b.
Proof.
  split; [|split; [|reflexivity]].
  - destruct s, t; reflexivity.
  - destruct s; reflexivity.
Qed.

End Configured.

(* ------------------------------------------------------------------ *)
(** ** Every way [DoExecute] can end *)

Section ExecuteCases.

Context {Mesh FieldSelection Exn : Type}.
Variable vtkmClip_Run :
  Mesh -> option ImplicitFunction -> bool -> FieldSelection -> Exn + Mesh.
Variable CleanGrid_Update : DataSet Mesh -> Exn + DataSet Mesh.
Variable c : Clip Mesh FieldSelection.

Local Abbreviation ev := (clip_event c).
Local Abbreviation ok := (clipped vtkmClip_Run c).
Local Abbreviation throws := (clip_throws vtkmClip_Run c).

(** The primitive returns on every domain, or there is a first domain on
    which it throws. *)
Lemma all_clipped_or_first_throw (l : DataSet Mesh) :
  (exists done, Forall2 ok l done) \/
  (exists good done x e post,
     l = good ++ x :: post /\ Forall2 ok good done /\ throws x e).
Proof.
  induction l as [|[dom id] l IH].
  - left. exists []. constructor.
  - destruct (vtkmClip_Run dom (m_func c) (m_invert c) (GetFieldSelection c))
      as [e|m] eqn:E.
    + right. exists [], [], (dom, id), e, l.
      split; [reflexivity|]. split; [constructor|exact E].
    + destruct IH as [(done & Hok)|(good & done & x & e & post & -> & Hok & Hth)].
      * left. exists ((m, id) :: done).
        constructor; [split; [exact E|reflexivity]|exact Hok].
      * right. exists ((dom, id) :: good), ((m, id) :: done), x, e, post.
        split; [reflexivity|]. split; [|exact Hth].
        constructor; [split; [exact E|reflexivity]|exact Hok].
Qed.

Lemma clipped_ids (l done : DataSet Mesh) :
  Forall2 ok l done -> map snd done = map snd l /\ length done = length l.
Proof.
  induction 1 as [|x y l done [_ Hid] _ [IHm IHl]]; [split; reflexivity|].
  cbn. split; congruence.
Qed.

(** The three ways the call can end. *)
Lemma DoExecute_cases :
  (exists assembled out,
     Forall2 ok (m_input c) assembled /\
     CleanGrid_Update assembled = inr out /\
     DoExecute vtkmClip_Run CleanGrid_Update c =
       (set_output c out, map ev (m_input c) ++ [EvClean assembled], Completed)) \/
  (exists assembled e,
     Forall2 ok (m_input c) assembled /\
     CleanGrid_Update assembled = inl e /\
     DoExecute vtkmClip_Run CleanGrid_Update c =
       (c, map ev (m_input c) ++ [EvClean assembled], Propagated e)) \/
  (exists good done x e post,
     m_input c = good ++ x :: post /\ Forall2 ok good done /\ throws x e /\
     DoExecute vtkmClip_Run CleanGrid_Update c =
       (c, map ev (good ++ [x]), Propagated e)).
Proof.
  destruct (all_clipped_or_first_throw (m_input c))
    as [(assembled & Hok)|(good & done & x & e & post & Hin & Hok & Hth)].
  - pose proof (DoExecute_loop_done vtkmClip_Run c (m_input c) [] assembled [] []
                  eq_refl Hok) as Hloop.
    change (Z.of_nat (length [])) with 0 in Hloop.
    destruct (CleanGrid_Update assembled) as [e|out] eqn:Hclean.
    + right; left. exists assembled, e. split; [exact Hok|]. split; [exact Hclean|].
      unfold DoExecute, DoExecute_body, GetNumberOfDomains.
      unfold mbnd at 1. rewrite Nat2Z.id, Hloop.
      cbn [app]. unfold mbnd at 1, Clean. rewrite Hclean. reflexivity.
    + left. exists assembled, out. split; [exact Hok|]. split; [exact Hclean|].
      unfold DoExecute, DoExecute_body, GetNumberOfDomains.
      unfold mbnd at 1. rewrite Nat2Z.id, Hloop.
      cbn [app]. unfold mbnd at 1, Clean. rewrite Hclean. reflexivity.
  - right; right. exists good, done, x, e, post.
    split; [exact Hin|]. split; [exact Hok|]. split; [exact Hth|].
    pose proof (DoExecute_loop_thrown vtkmClip_Run c good [] done [] post x e []
                  Hin Hok Hth) as Hloop.
    change (Z.of_nat (length [])) with 0 in Hloop.
    unfold DoExecute, DoExecute_body, GetNumberOfDomains.
    unfold mbnd at 1. rewrite Nat2Z.id. rewrite Hin at 1. rewrite Hloop.
    cbn [app]. rewrite map_app. reflexivity.
Qed.

(** X14. [DoExecute] writes the output only: the configured function, the
    invert flag, the input and the field selection are as before however the
    call ends, and unless the call completes the whole filter, its earlier
    output included, is as before. *)
Theorem DoExecute_frame :
  let '(c', _, e) := DoExecute vtkmClip_Run CleanGrid_Update c in
  m_func c' = m_func c /\ m_invert c' = m_invert c /\
  m_input c' = m_input c /\ m_field_selection c' = m_field_selection c /\
  (e <> Completed -> c' = c).
Proof.
  destruct DoExecute_cases
    as [(assembled & out & _ & _ & ->)
       |[(assembled & e & _ & _ & ->)
        |(good & done & x & e & post & _ & _ & _ & ->)]].
  - cbn. repeat split; auto. intros H. contradiction.
  - repeat split; auto.
  - repeat split; auto.
Qed.

(** X15. The loop never indexes the input outside its domains, and the calls
    it makes are always the clip calls for a prefix of the domains, in their
    order, followed by at most one cleanup call, which is made only after a
    clip call for every domain. *)
Theorem DoExecute_calls_in_order :
  let '(_, tr, e) := DoExecute vtkmClip_Run CleanGrid_Update c in
  e <> BadIndex /\
  exists (k : nat) tail,
    tr = map ev (take k (m_input c)) ++ tail /\
    (k <= length (m_input c))%nat /\
    (tail = [] \/
     (k = length (m_input c) /\ exists data_set, tail = [EvClean data_set])).
Proof.
  destruct DoExecute_cases
    as [(assembled & out & _ & _ & ->)
       |[(assembled & e & _ & _ & ->)
        |(good & done & x & e & post & Hin & _ & _ & ->)]].
  - split; [discriminate|].
    exists (length (m_input c)), [EvClean assembled].
    rewrite firstn_all. split; [reflexivity|]. split; [lia|]. right. eauto.
  - split; [discriminate|].
    exists (length (m_input c)), [EvClean assembled].
    rewrite firstn_all. split; [reflexivity|]. split; [lia|]. right. eauto.
  - split; [discriminate|].
    exists (length (good ++ [x])), [].
    rewrite Hin.
    replace (good ++ x :: post) with ((good ++ [x]) ++ post)
      by (rewrite <- app_assoc; reflexivity).
    rewrite take_app_length, app_nil_r.
    split; [reflexivity|]. split; [rewrite !length_app; lia|]. left. reflexivity.
Qed.

(** X16. When the clip primitive returns on every domain and the cleanup
    throws, the exception of the cleanup leaves [DoExecute]: every domain
    has been clipped, the cleanup has been called on the assembled
    collection, and the filter, with the output it had, is as before. *)
Theorem DoExecute_cleanup_failure (assembled : DataSet Mesh) (e : Exn) :
  Forall2 ok (m_input c) assembled ->
  CleanGrid_Update assembled = inl e ->
  DoExecute vtkmClip_Run CleanGrid_Update c =
    (c, map ev (m_input c) ++ [EvClean assembled], Propagated e).
Proof.
  intros Hok Hclean.
  pose proof (DoExecute_loop_done vtkmClip_Run c (m_input c) [] assembled [] []
                eq_refl Hok) as Hloop.
  change (Z.of_nat (length [])) with 0 in Hloop.
  unfold DoExecute, DoExecute_body, GetNumberOfDomains.
  unfold mbnd at 1. rewrite Nat2Z.id, Hloop.
  cbn [app]. unfold mbnd at 1, Clean. rewrite Hclean. reflexivity.
Qed.

(** X17. Whenever [DoExecute] completes, the collection it gave to the
    cleanup has one mesh per domain of the input, under the same domain ids
    in the same order, each mesh being what the clip primitive returned for
    the domain; the output [m_output] of the filter after the call is what
    the cleanup returned for it, the other members are as before, and the
    primitive was called once per domain. *)
Theorem DoExecute_completed (c' : Clip Mesh FieldSelection)
    (tr : list (event Mesh FieldSelection)) :
  DoExecute vtkmClip_Run CleanGrid_Update c = (c', tr, Completed) ->
  exists assembled out,
    Forall2 ok (m_input c) assembled /\
    map snd assembled = map snd (m_input c) /\
    length assembled = length (m_input c) /\
    CleanGrid_Update assembled = inr out /\
    m_output c' = Some out /\
    c' = mkClip (m_func c) (m_invert c) (m_input c) (Some out)
                (m_field_selection c) /\
    tr = map ev (m_input c) ++ [EvClean assembled].
Proof.
  intros H.
  destruct DoExecute_cases
    as [(assembled & out & Hok & Hclean & E)
       |[(assembled & e & _ & _ & E)
        |(good & done & x & e & post & _ & _ & _ & E)]];
    rewrite E in H; try discriminate.
  injection H as <- <-.
  destruct (clipped_ids _ _ Hok) as [Hids Hlen].
  exists assembled, out. split; [exact Hok|]. split; [exact Hids|].
  split; [exact Hlen|]. split; [exact Hclean|]. repeat split; reflexivity.
Qed.

End ExecuteCases.

Lemma DoExecute_cleanup_failure_witness :
  DoExecute halve reject good_input =
    (good_input,
     map (clip_event good_input) (m_input good_input)
       ++ [EvClean [(5, 7); (10, 3)]],
     Propagated 99).
Proof.
  apply (DoExecute_cleanup_failure halve reject good_input [(5, 7); (10, 3)] 99).
  - repeat constructor.
  - reflexivity.
Defined.

Lemma DoExecute_completed_witness :
  exists assembled out,
    Forall2 (clipped halve good_input) (m_input good_input) assembled /\
    map snd assembled = map snd (m_input good_input) /\
    length assembled = length (m_input good_input) /\
    keep assembled = inr out /\
    m_output (mkClip None false [(10, 7); (20, 3)] (Some [(5, 7); (10, 3)]) tt)
      = Some out /\
    mkClip None false [(10, 7); (20, 3)] (Some [(5, 7); (10, 3)]) tt =
      mkClip (m_func good_input) (m_invert good_input) (m_input good_input)
             (Some out) (m_field_selection good_input) /\
    [EvClip 10 None false tt; EvClip 20 None false tt; EvClean [(5, 7); (10, 3)]] =
      map (clip_event good_input) (m_input good_input) ++ [EvClean assembled].
Proof.
  apply (DoExecute_completed halve keep good_input).
  vm_compute. reflexivity.
Defined.

(* ------------------------------------------------------------------ *)
(** ** Edge cases of the filter and of the inactive slot *)

Section ExecuteEdges.

Context {Mesh FieldSelection Exn : Type}.
Variable vtkmClip_Run :
  Mesh -> option ImplicitFunction -> bool -> FieldSelection -> Exn + Mesh.
Variable CleanGrid_Update : DataSet Mesh -> Exn + DataSet Mesh.

(** X18. [DoExecute] does not test that a clip function was configured: on a
    filter as the constructor leaves it, with at least one domain, the first
    call made is the clip primitive on the first domain with the empty
    handle and the invert flag false. *)
Theorem DoExecute_unconfigured (x : Mesh * Z) (rest : DataSet Mesh)
    (fs : FieldSelection) :
  exists tr,
    (DoExecute vtkmClip_Run CleanGrid_Update (new_Clip (x :: rest) fs)).1.2 =
      EvClip x.1 None false fs :: tr.
Proof.
  destruct (DoExecute_cases vtkmClip_Run CleanGrid_Update (new_Clip (x :: rest) fs))
    as [(assembled & out & _ & _ & ->)
       |[(assembled & e & _ & _ & ->)
        |(good & done & y & e & post & Hin & _ & _ & ->)]].
  - eexists. reflexivity.
  - eexists. reflexivity.
  - cbn [fst snd]. cbn [m_input new_Clip] in Hin.
    destruct good as [|g good]; cbn [app] in Hin; injection Hin as <- _;
      eexists; reflexivity.
Qed.

(** X20. On an input without domains [DoExecute] calls the clip primitive
    not at all and the cleanup once, on the empty collection; the output
    [m_output] after the call is what the cleanup returns for it, the other
    members being as before, and if the cleanup throws the filter is as
    before. *)
Theorem DoExecute_no_domain (c : Clip Mesh FieldSelection) :
  m_input c = [] ->
  DoExecute vtkmClip_Run CleanGrid_Update c =
    match CleanGrid_Update [] with
    | inr out =>
        (mkClip (m_func c) (m_invert c) (m_input c) (Some out)
                (m_field_selection c),
         [EvClean []], Completed)
    | inl e => (c, [EvClean []], Propagated e)
    end.
Proof.
  intros Hin.
  unfold DoExecute, DoExecute_body, GetNumberOfDomains. rewrite Hin.
  change (Z.to_nat (Z.of_nat (length (@nil (Mesh * Z))))) with 0%nat.
  cbn [DoExecute_loop]. unfold mbnd, mret, Clean. cbn [app].
  destruct (CleanGrid_Update []); cbn; unfold set_output; rewrite ?Hin;
    reflexivity.
Qed.

End ExecuteEdges.

Lemma DoExecute_no_domain_witness :
  DoExecute halve keep empty_clip =
    (mkClip None false [] (Some []) tt, [EvClean []], Completed).
Proof.
  apply (DoExecute_no_domain halve keep empty_clip).
  reflexivity.
Defined.

(** The index [Gradient] selects, on two objects that agree on the active
    slots. *)
Lemma Gradient_same (a b : MultiPlane.t) (point : Vec3) :
  MultiPlane.m_num_planes a = MultiPlane.m_num_planes b ->
  same_active_slots a b (MultiPlane.m_num_planes a) ->
  1 <= MultiPlane.m_num_planes a ->
  MultiPlane.Gradient a point = MultiPlane.Gradient b point.
Proof.
  intros Hnum Hsame Hn.
  assert (Hsame' : same_active_slots a b
                     (Z.of_nat (Z.to_nat (MultiPlane.m_num_planes a)))).
  { intros i Hi. apply Hsame. lia. }
  unfold MultiPlane.Gradient, MultiPlane.Gradient_index. rewrite <- Hnum.
  rewrite (Gradient_loop_same a b point _ Hsame') by lia.
  destruct (MultiPlane.Gradient_loop b point
              (Z.to_nat (MultiPlane.m_num_planes a)) 0 NegativeInfinity 0)
    as [k| |] eqn:E; cbn; auto.
  apply Gradient_loop_range in E.
  apply rd_lookup; [lia|]. apply (Hsame (Z.to_nat k)). lia.
Qed.

(** X21. Writing an inactive slot changes no evaluation: after
    [SetPlane(idx, ...)] on a slot [idx] in 0..2 that is at or above the
    active count, [Value] and (with at least one active plane) [Gradient]
    return at every point what they returned before. *)
Theorem SetPlane_inactive_slot (assertions : bool) (mp : MultiPlane.t)
    (idx : Z) (p n point : Vec3) :
  MultiPlane.wf mp ->
  0 <= idx < 3 ->
  MultiPlane.m_num_planes mp <= idx ->
  exists mp',
    MultiPlane.SetPlane assertions mp idx p n = Returns mp' /\
    MultiPlane.Value mp' point = MultiPlane.Value mp point /\
    (1 <= MultiPlane.m_num_planes mp ->
     MultiPlane.Gradient mp' point = MultiPlane.Gradient mp point).
Proof.
  intros Hwf Hi Hn. eexists. split; [apply SetPlane_returns; assumption|].
  set (mp' := MultiPlane.mk _ _ _ _).
  assert (Hsame : same_active_slots mp' mp (MultiPlane.m_num_planes mp)).
  { intros i Hlt. unfold mp'. cbn [MultiPlane.Points MultiPlane.Normals].
    rewrite !list_lookup_insert_ne by lia. split; reflexivity. }
  assert (Hsame' : same_active_slots mp' mp
                     (Z.of_nat (Z.to_nat (MultiPlane.m_num_planes mp)))).
  { intros i Hlt. apply Hsame. lia. }
  split.
  - unfold MultiPlane.Value.
    change (MultiPlane.m_num_planes mp') with (MultiPlane.m_num_planes mp).
    apply (Value_loop_same mp' mp point _ Hsame'); lia.
  - intros H1. apply Gradient_same; [reflexivity|exact Hsame|exact H1].
Qed.

Lemma SetPlane_inactive_slot_witness :
  exists mp',
    MultiPlane.SetPlane true two_planes 2 (vZ 9 9 9) (vZ 0 0 1) = Returns mp' /\
    MultiPlane.Value mp' (vZ 3 5 0) = MultiPlane.Value two_planes (vZ 3 5 0) /\
    (1 <= MultiPlane.m_num_planes two_planes ->
     MultiPlane.Gradient mp' (vZ 3 5 0) = MultiPlane.Gradient two_planes (vZ 3 5 0)).
Proof.
  apply (SetPlane_inactive_slot true two_planes 2 (vZ 9 9 9) (vZ 0 0 1) (vZ 3 5 0)).
  - split; reflexivity.
  - lia.
  - vm_compute; discriminate.
Defined.
